(** * pyautogit: the repository control screen and the settings screen

    A shallow embedding of [pyautogit/repo_control_screen.py] and of
    [pyautogit/settings_screen.py].  The methods of [RepoControlManager]
    mutate the widgets of the top-level manager, call the functions of
    [pyautogit.commands] and open popups; they are embedded as computations
    in a state-and-exception monad over one record that holds the widgets,
    the scratch fields of the screen and the chronological trace of every
    command invocation (with the answer it got) and popup request.
    The answers of [pyautogit.commands] are not fixed: every definition takes
    the command runner as a function of the trace so far and the command. *)

From Stdlib Require Import String Ascii List ZArith Bool Arith Lia.
Import ListNotations.
Open Scope string_scope.

(** ** Python strings *)

Module PyStr.

(** Characters at which [str.splitlines] ends a line: LF, VT, FF, CR, FS,
    GS, RS and NEL (strings are sequences of characters below 256). *)
Definition is_line_boundary (c : ascii) : bool :=
  let n := nat_of_ascii c in
  Nat.eqb n 10 || Nat.eqb n 11 || Nat.eqb n 12 || Nat.eqb n 13
  || Nat.eqb n 28 || Nat.eqb n 29 || Nat.eqb n 30 || Nat.eqb n 133.

Definition is_cr (c : ascii) : bool := Nat.eqb (nat_of_ascii c) 13.
Definition is_lf (c : ascii) : bool := Nat.eqb (nat_of_ascii c) 10.

(** [splitlines_from cur s]: [cur] is the part of the current line that
    has been read. *)
Fixpoint splitlines_from (cur : string) (s : string) : list string :=
  match s with
  | EmptyString =>
      match cur with EmptyString => [] | _ => [cur] end
  | String c rest =>
      if is_line_boundary c then
        match rest with
        | String d rest' =>
            if is_cr c && is_lf d
            then cur :: splitlines_from EmptyString rest'
            else cur :: splitlines_from EmptyString rest
        | EmptyString => [cur]
        end
      else splitlines_from (cur ++ String c EmptyString) rest
  end.

(** [s.splitlines()] *)
Definition splitlines (s : string) : list string :=
  splitlines_from EmptyString s.

(** [s.startswith(p)] *)
Definition startswith (p s : string) : bool := String.prefix p s.

(** [s[n:]] for [0 <= n] *)
Fixpoint slice_from (n : nat) (s : string) : string :=
  match n, s with
  | O, _ => s
  | S _, EmptyString => EmptyString
  | S k, String _ rest => slice_from k rest
  end.

(** [str(x)] for a value that is a string or [None] *)
Definition str_of (x : option string) : string :=
  match x with Some s => s | None => "None" end.

(** [os.path.join(a, b)] of posixpath, for two components *)
Definition starts_with_sep (s : string) : bool := String.prefix "/" s.

Fixpoint ends_with_sep (s : string) : bool :=
  match s with
  | EmptyString => false
  | String c EmptyString => Ascii.eqb c "/"%char
  | String _ rest => ends_with_sep rest
  end.

Definition path_join (a b : string) : string :=
  if starts_with_sep b then b
  else match a with
       | EmptyString => b
       | _ => if ends_with_sep a then a ++ b else a ++ "/" ++ b
       end.

End PyStr.

Definition LF : string := String (ascii_of_nat 10) EmptyString.

(** ** Widgets of the UI toolkit *)

(** Python exceptions that the modelled code can raise. *)
Inductive PyExn : Type :=
| IndexError      (* list index out of range *)
| TypeError       (* None is not subscriptable *)
| AttributeError. (* None has no attribute *)

Inductive Outcome (A : Type) : Type :=
| Ok (a : A)
| Raise (e : PyExn).
Arguments Ok {A} a.
Arguments Raise {A} e.

(** Modelled from the spec: the selectable-list panel of the UI toolkit
    ([py_cui]'s scroll menu), which is a dependency and not a source of this
    repository.  Its surface is clear / add-items / get-selected /
    set-selected-index; clearing drops the items together with the stale
    selection, and get-selected answers [None] on an empty panel and
    indexes the item list otherwise. *)
Record ScrollMenu : Type := mkMenu {
  view_items : list string;
  selected_item : nat
}.

Module Menu.

Definition clear (m : ScrollMenu) : ScrollMenu := mkMenu [] 0.

Definition add_item_list (l : list string) (m : ScrollMenu) : ScrollMenu :=
  mkMenu (view_items m ++ l)%list (selected_item m).

Definition get_item_list (m : ScrollMenu) : list string := view_items m.

Definition set_selected (i : nat) (m : ScrollMenu) : ScrollMenu :=
  mkMenu (view_items m) i.

Definition get (m : ScrollMenu) : Outcome (option string) :=
  match view_items m with
  | [] => Ok None
  | _ :: _ =>
      match nth_error (view_items m) (selected_item m) with
      | Some s => Ok (Some s)
      | None => Raise IndexError
      end
  end.

(** The panel invariant of the data model: the selection is a valid index,
    or the panel is empty and the selection rests at its initial 0. *)
Definition valid (m : ScrollMenu) : Prop :=
  selected_item m < length (view_items m)
  \/ (view_items m = [] /\ selected_item m = 0).

End Menu.

(** The text panel of the UI toolkit: a body and a title. *)
Record TextBlock : Type := mkTextBlock {
  text : string;
  title : string
}.

(** ** Commands, events and the state of the screen *)

(** Credentials held by the top-level manager. *)
Record Credentials : Type := mkCredentials {
  username : option string;
  password : option string
}.


(** The functions of [pyautogit.commands] this screen calls, with their
    arguments.  An argument read from a panel with [get()] may be [None]. *)
Inductive Cmd : Type :=
| git_status_short
| git_get_remotes
| git_get_branches
| git_get_remote_info (remote : option string)
| git_get_recent_commits (branch : string)
| git_log (branch : string)
| git_diff
| git_diff_file (filename : string)
| git_add_remote (remote_name : option string) (remote_url : string)
| git_add_file (filename : string)
| git_reset_file (filename : string)
| git_add_all
| git_commit_changes (commit_message : string)
| git_pull_branch (branch : string) (remote : option string) (c : Credentials)
| git_push_to_branch (branch : string) (remote : option string) (c : Credentials)
| git_create_new_branch (new_branch_name : string)
| git_checkout_branch (branch : string)
| open_default_editor (editor : string) (path : string).

(** What a text-box popup does with the text the user submits. *)
Inductive Callback : Type :=
| cb_ask_new_remote_url
| cb_add_remote
| cb_ask_password
| cb_update_password.

(** Operations that wait for the credentials. *)
Inductive Pending : Type :=
| pull_operation
| push_operation.

Inductive Event : Type :=
| Call (c : Cmd) (out : string) (err : Z)
| ErrorPopup (popup_title popup_text : string)
| MessagePopup (popup_title popup_text : string)
| WarningPopup (popup_title popup_text : string)
| TextBoxPopup (popup_title : string)
| MenuPopup (popup_title : string) (choices : list string)
| LoadingPopup (popup_title : string)
| StopLoadingPopup
| LoseFocus.

(** The command runner: the answer [(out, err)] to a command, given
    everything that happened before. *)
Definition Runner : Type := list Event -> Cmd -> string * Z.

Record State : Type := mkState {
  (* widgets of the top-level manager *)
  branch_menu : ScrollMenu;
  remotes_menu : ScrollMenu;
  add_files_menu : ScrollMenu;
  commits_menu : ScrollMenu;
  info_text_block : TextBlock;
  commit_message_box : string;
  new_branch_textbox : string;
  (* settings and session data of the top-level manager *)
  default_editor : option string;
  credentials : Credentials;
  post_input_callback : option Pending;
  (* the text-box popup that is open, if any *)
  popup : option Callback;
  (* fields of RepoControlManager *)
  message : string;
  status : Z;
  utility_var : option string;
  (* the process *)
  cwd : string;
  events : list Event
}.

Definition set_branch_menu (f : ScrollMenu -> ScrollMenu) (s : State) : State :=
  mkState (f (branch_menu s)) (remotes_menu s) (add_files_menu s) (commits_menu s)
    (info_text_block s) (commit_message_box s) (new_branch_textbox s)
    (default_editor s) (credentials s) (post_input_callback s) (popup s)
    (message s) (status s) (utility_var s) (cwd s) (events s).

Definition set_remotes_menu (f : ScrollMenu -> ScrollMenu) (s : State) : State :=
  mkState (branch_menu s) (f (remotes_menu s)) (add_files_menu s) (commits_menu s)
    (info_text_block s) (commit_message_box s) (new_branch_textbox s)
    (default_editor s) (credentials s) (post_input_callback s) (popup s)
    (message s) (status s) (utility_var s) (cwd s) (events s).

Definition set_add_files_menu (f : ScrollMenu -> ScrollMenu) (s : State) : State :=
  mkState (branch_menu s) (remotes_menu s) (f (add_files_menu s)) (commits_menu s)
    (info_text_block s) (commit_message_box s) (new_branch_textbox s)
    (default_editor s) (credentials s) (post_input_callback s) (popup s)
    (message s) (status s) (utility_var s) (cwd s) (events s).

Definition set_commits_menu (f : ScrollMenu -> ScrollMenu) (s : State) : State :=
  mkState (branch_menu s) (remotes_menu s) (add_files_menu s) (f (commits_menu s))
    (info_text_block s) (commit_message_box s) (new_branch_textbox s)
    (default_editor s) (credentials s) (post_input_callback s) (popup s)
    (message s) (status s) (utility_var s) (cwd s) (events s).

Definition set_info_text_block (f : TextBlock -> TextBlock) (s : State) : State :=
  mkState (branch_menu s) (remotes_menu s) (add_files_menu s) (commits_menu s)
    (f (info_text_block s)) (commit_message_box s) (new_branch_textbox s)
    (default_editor s) (credentials s) (post_input_callback s) (popup s)
    (message s) (status s) (utility_var s) (cwd s) (events s).

Definition set_commit_message_box (v : string) (s : State) : State :=
  mkState (branch_menu s) (remotes_menu s) (add_files_menu s) (commits_menu s)
    (info_text_block s) v (new_branch_textbox s)
    (default_editor s) (credentials s) (post_input_callback s) (popup s)
    (message s) (status s) (utility_var s) (cwd s) (events s).

Definition set_new_branch_textbox (v : string) (s : State) : State :=
  mkState (branch_menu s) (remotes_menu s) (add_files_menu s) (commits_menu s)
    (info_text_block s) (commit_message_box s) v
    (default_editor s) (credentials s) (post_input_callback s) (popup s)
    (message s) (status s) (utility_var s) (cwd s) (events s).

Definition set_default_editor (v : option string) (s : State) : State :=
  mkState (branch_menu s) (remotes_menu s) (add_files_menu s) (commits_menu s)
    (info_text_block s) (commit_message_box s) (new_branch_textbox s)
    v (credentials s) (post_input_callback s) (popup s)
    (message s) (status s) (utility_var s) (cwd s) (events s).

Definition set_credentials (v : Credentials) (s : State) : State :=
  mkState (branch_menu s) (remotes_menu s) (add_files_menu s) (commits_menu s)
    (info_text_block s) (commit_message_box s) (new_branch_textbox s)
    (default_editor s) v (post_input_callback s) (popup s)
    (message s) (status s) (utility_var s) (cwd s) (events s).


Definition set_popup (v : option Callback) (s : State) : State :=
  mkState (branch_menu s) (remotes_menu s) (add_files_menu s) (commits_menu s)
    (info_text_block s) (commit_message_box s) (new_branch_textbox s)
    (default_editor s) (credentials s) (post_input_callback s) v
    (message s) (status s) (utility_var s) (cwd s) (events s).

Definition set_message_status (m : string) (z : Z) (s : State) : State :=
  mkState (branch_menu s) (remotes_menu s) (add_files_menu s) (commits_menu s)
    (info_text_block s) (commit_message_box s) (new_branch_textbox s)
    (default_editor s) (credentials s) (post_input_callback s) (popup s)
    m z (utility_var s) (cwd s) (events s).

Definition set_utility_var (v : option string) (s : State) : State :=
  mkState (branch_menu s) (remotes_menu s) (add_files_menu s) (commits_menu s)
    (info_text_block s) (commit_message_box s) (new_branch_textbox s)
    (default_editor s) (credentials s) (post_input_callback s) (popup s)
    (message s) (status s) v (cwd s) (events s).

Definition log_event (e : Event) (s : State) : State :=
  mkState (branch_menu s) (remotes_menu s) (add_files_menu s) (commits_menu s)
    (info_text_block s) (commit_message_box s) (new_branch_textbox s)
    (default_editor s) (credentials s) (post_input_callback s) (popup s)
    (message s) (status s) (utility_var s) (cwd s) (events s ++ [e])%list.

(** ** The monad of the screen's methods *)

Definition M (A : Type) : Type := State -> Outcome A * State.

Definition ret {A} (a : A) : M A := fun s => (Ok a, s).

Definition bind {A B} (m : M A) (k : A -> M B) : M B :=
  fun s =>
    match m s with
    | (Ok a, s') => k a s'
    | (Raise e, s') => (Raise e, s')
    end.

Definition raise {A} (e : PyExn) : M A := fun s => (Raise e, s).

Definition gets {A} (f : State -> A) : M A := fun s => (Ok (f s), s).

Definition modify (f : State -> State) : M unit := fun s => (Ok tt, f s).

Declare Scope py_scope.
Delimit Scope py_scope with py.
Notation "x <- m ;; k" := (bind m (fun x => k))
  (at level 61, m at next level, right associativity) : py_scope.
Notation "m ;; k" := (bind m (fun _ => k))
  (at level 61, right associativity) : py_scope.
Open Scope py_scope.

(** The state a computation leaves and the events it added. *)
Definition exec {A} (m : M A) (s : State) : State := snd (m s).
Definition outcome {A} (m : M A) (s : State) : Outcome A := fst (m s).

(** ** The toolkit and the command runner as actions *)

Section RepoControl.

Variable run : Runner.

(** A function of [pyautogit.commands]: the runner answers, and the call
    and its answer enter the trace. *)
Definition call (c : Cmd) : M (string * Z) :=
  fun s =>
    let r := run (events s) c in
    (Ok r, log_event (Call c (fst r) (snd r)) s).

Definition show_error_popup (ttl txt : string) : M unit :=
  modify (log_event (ErrorPopup ttl txt)).

Definition show_message_popup (ttl txt : string) : M unit :=
  modify (log_event (MessagePopup ttl txt)).

Definition show_warning_popup (ttl txt : string) : M unit :=
  modify (log_event (WarningPopup ttl txt)).

Definition show_text_box_popup (ttl : string) (command : Callback) : M unit :=
  modify (fun s => set_popup (Some command) (log_event (TextBoxPopup ttl) s)).

Definition show_menu_popup (ttl : string) (choices : list string) : M unit :=
  modify (log_event (MenuPopup ttl choices)).

Definition stop_loading_popup : M unit := modify (log_event StopLoadingPopup).

Definition lose_focus : M unit := modify (log_event LoseFocus).

(** [menu.get()] on one of the panels *)
Definition menu_get (panel : State -> ScrollMenu) : M (option string) :=
  fun s => (Menu.get (panel s), s).

(** [v[n:]] for a value that is a string or [None] *)
Definition subscript_from (n : nat) (v : option string) : M string :=
  match v with
  | Some s => ret (PyStr.slice_from n s)
  | None => raise TypeError
  end.

(** ** RepoControlManager *)

Definition menu_choices : list string :=
  ["Add Remote"; "Add All"; "Push Branch"; "Pull Branch"].

Definition get_repo_status_short : M unit :=
  r <- call git_status_short ;;
  let (out, err) := r in
  if Z.ltb err 0 then show_error_popup "Cannot get git status" out
  else
    modify (set_add_files_menu Menu.clear) ;;
    modify (set_add_files_menu (Menu.add_item_list (PyStr.splitlines out))).

Definition get_repo_remotes : M unit :=
  r <- call git_get_remotes ;;
  let (out, err) := r in
  if Z.ltb err 0 then show_error_popup "Cannot get git remotes" out
  else
    modify (set_remotes_menu Menu.clear) ;;
    modify (set_remotes_menu (Menu.add_item_list (PyStr.splitlines out))).

(** The loop of [get_repo_branches]: count the entries before the first
    one that starts with the marker. *)
Fixpoint scan_branches (items : list string) (selected_branch : nat) : nat :=
  match items with
  | [] => selected_branch
  | branch :: rest =>
      if PyStr.startswith "*" branch then selected_branch
      else scan_branches rest (selected_branch + 1)
  end.

Definition get_repo_branches : M unit :=
  r <- call git_get_branches ;;
  let (out, err) := r in
  if Z.ltb err 0 then show_error_popup "Cannot get git branches" out
  else
    modify (set_branch_menu Menu.clear) ;;
    modify (set_branch_menu (Menu.add_item_list (PyStr.splitlines out))) ;;
    items <- gets (fun s => Menu.get_item_list (branch_menu s)) ;;
    let selected_branch := scan_branches items 0 in
    modify (set_branch_menu (Menu.set_selected selected_branch)).

Definition show_remote_info : M unit :=
  b <- menu_get branch_menu ;;
  match b with
  | None => ret tt
  | Some _ =>
      remote <- menu_get remotes_menu ;;
      r <- call (git_get_remote_info remote) ;;
      let (out, err) := r in
      if Z.ltb err 0 then show_error_popup "Cannot get remote info" out
      else
        modify (set_info_text_block (fun t => mkTextBlock "" (title t))) ;;
        modify (set_info_text_block (fun t => mkTextBlock out (title t))) ;;
        modify (set_info_text_block
                  (fun t => mkTextBlock (text t) (PyStr.str_of remote ++ " remote info")))
  end.

Definition get_recent_commits : M unit :=
  b <- menu_get branch_menu ;;
  match b with
  | None => ret tt
  | Some _ =>
      b' <- menu_get branch_menu ;;
      branch <- subscript_from 2 b' ;;
      r <- call (git_get_recent_commits branch) ;;
      let (out, err) := r in
      if Z.ltb err 0 then show_error_popup "Cannot get recent commits" out
      else
        modify (set_commits_menu Menu.clear) ;;
        modify (set_commits_menu (Menu.add_item_list (PyStr.splitlines out)))
  end.

Definition refresh_git_status : M unit :=
  remote <- gets (fun s => selected_item (remotes_menu s)) ;;
  selected_file <- gets (fun s => selected_item (add_files_menu s)) ;;
  get_repo_branches ;;
  get_repo_remotes ;;
  get_repo_status_short ;;
  get_recent_commits ;;
  n_remotes <- gets (fun s => length (Menu.get_item_list (remotes_menu s))) ;;
  (if Nat.ltb remote n_remotes
   then modify (set_remotes_menu (Menu.set_selected remote))
   else ret tt) ;;
  n_files <- gets (fun s => length (Menu.get_item_list (add_files_menu s))) ;;
  (if Nat.ltb selected_file n_files
   then modify (set_add_files_menu (Menu.set_selected selected_file))
   else ret tt).

Definition add_remote (remote_url : string) : M unit :=
  remote_name <- gets utility_var ;;
  modify (set_utility_var None) ;;
  r <- call (git_add_remote remote_name remote_url) ;;
  let (out, err) := r in
  if Z.ltb err 0 then show_error_popup "Failed to add remote" out
  else
    modify (set_remotes_menu Menu.clear) ;;
    refresh_git_status.


Definition ask_new_remote_name : M unit :=
  show_text_box_popup "Please enter the new remote name." cb_ask_new_remote_url.

Definition process_menu_selection (selection : string) : M unit :=
  if String.eqb selection "Add Remote" then ask_new_remote_name
  else show_warning_popup "Warning - Not supported"
                          "This menu item has not yet been implemented.".

Definition show_menu : M unit :=
  show_menu_popup "Full Control Menu" menu_choices.

Definition show_log : M unit :=
  b <- menu_get branch_menu ;;
  match b with
  | None => ret tt
  | Some _ =>
      b' <- menu_get branch_menu ;;
      branch <- subscript_from 2 b' ;;
      r <- call (git_log branch) ;;
      let (out, err) := r in
      if Z.ltb err 0
      then show_error_popup ("Unable to show git log for branch " ++ branch ++ ".") out
      else
        modify (set_info_text_block (fun t => mkTextBlock out (title t))) ;;
        modify (set_info_text_block (fun t => mkTextBlock (text t) "Git log"))
  end.

Definition open_git_diff : M unit :=
  r <- call git_diff ;;
  let (out, err) := r in
  if Z.ltb err 0 then show_error_popup "Unable to show git diff repo." out
  else
    modify (set_info_text_block (fun t => mkTextBlock out (title t))) ;;
    modify (set_info_text_block (fun t => mkTextBlock (text t) "Git Diff")).

Definition open_git_diff_file : M unit :=
  f <- menu_get add_files_menu ;;
  filename <- subscript_from 3 f ;;
  r <- call (git_diff_file filename) ;;
  let (out, err) := r in
  if Z.ltb err 0
  then show_error_popup ("Unable to show git diff for file " ++ filename ++ ".") out
  else
    modify (set_info_text_block (fun t => mkTextBlock out (title t))) ;;
    modify (set_info_text_block
              (fun t => mkTextBlock (text t) ("Git Diff - " ++ filename))).

Definition open_editor (file : option string) : M unit :=
  editor <- gets default_editor ;;
  match editor with
  | None => show_error_popup "Error" "No default editor specified."
  | Some ed =>
      current_path <- gets cwd ;;
      (match file with
       | Some f => let _ := PyStr.path_join current_path f in ret tt
       | None => ret tt
       end) ;;
      r <- call (open_default_editor ed current_path) ;;
      let (out, err) := r in
      if negb (Z.eqb err 0) then show_error_popup "Failed to open editor." out
      else show_message_popup ("Opened " ++ current_path)
             ("Opened " ++ ed ++ " editor in external window")
  end.

Definition open_editor_file : M unit :=
  f <- menu_get add_files_menu ;;
  filename <- subscript_from 3 f ;;
  open_editor (Some filename).

Definition add_all_changes : M unit :=
  r <- call git_add_all ;;
  let (out, err) := r in
  if negb (Z.eqb err 0) then show_error_popup "Git Add Error" out
  else refresh_git_status.

Definition add_revert_file : M unit :=
  f <- menu_get add_files_menu ;;
  match f with
  | None => raise AttributeError
  | Some filename =>
      r <- (if PyStr.startswith " " filename || PyStr.startswith "?" filename
            then call (git_add_file (PyStr.slice_from 3 filename))
            else call (git_reset_file (PyStr.slice_from 3 filename))) ;;
      let (out, err) := r in
      if Z.ltb err 0
      then show_error_popup ("Cannot add/revert file " ++ filename) out
      else refresh_git_status
  end.

Definition pull_repo_branch : M unit :=
  b <- menu_get branch_menu ;;
  branch <- subscript_from 2 b ;;
  remote <- menu_get remotes_menu ;;
  creds <- gets credentials ;;
  r <- call (git_pull_branch branch remote creds) ;;
  let (out, err) := r in
  (if negb (Z.eqb err 0) then show_error_popup "Failed to pull from remote" out
   else
     modify (set_info_text_block (fun t => mkTextBlock out (title t))) ;;
     modify (set_info_text_block
               (fun t => mkTextBlock (text t)
                  ("Git Pull Status - " ++ PyStr.str_of remote ++ " - " ++ branch))) ;;
     show_message_popup "Pulled branch"
       ("Successfully pulled branch " ++ branch ++ " from remote " ++ PyStr.str_of remote)) ;;
  refresh_git_status.

Definition commit : M unit :=
  commit_message <- gets commit_message_box ;;
  r <- call (git_commit_changes commit_message) ;;
  let (out, err) := r in
  (if negb (Z.eqb err 0) then show_error_popup "Commit failed!" out
   else
     show_message_popup "Success" ("Committed: " ++ commit_message) ;;
     refresh_git_status ;;
     show_log) ;;
  modify (set_commit_message_box "").

Definition push_repo_branch : M unit :=
  b <- menu_get branch_menu ;;
  branch <- subscript_from 2 b ;;
  remote <- menu_get remotes_menu ;;
  creds <- gets credentials ;;
  r <- call (git_push_to_branch branch remote creds) ;;
  modify (set_message_status (fst r) (snd r)) ;;
  refresh_git_status ;;
  msg <- gets message ;;
  modify (set_info_text_block (fun t => mkTextBlock msg (title t))) ;;
  stop_loading_popup.

Definition show_push_result : M unit :=
  st <- gets status ;;
  msg <- gets message ;;
  (if negb (Z.eqb st 0) then show_error_popup "Unable to push to remote!" msg
   else show_message_popup "Pushed Successfully" msg) ;;
  modify (set_message_status "" 0).

(** Modelled from the spec: [show_error_popup] called on the top-level
    manager itself (whose class is not among the sources) instead of on its
    [root]; the create-branch contract has the failure surfaced as an error
    popup before the input is cleared. *)
Definition manager_show_error_popup (ttl txt : string) : M unit :=
  show_error_popup ttl txt.

Definition create_new_branch : M unit :=
  new_branch_name <- gets new_branch_textbox ;;
  if Nat.eqb (String.length new_branch_name) 0
  then show_error_popup "ERROR - Illegal branchname" "Please enter a valid branchname."
  else
    r <- call (git_create_new_branch new_branch_name) ;;
    let (out, err) := r in
    (if negb (Z.eqb err 0) then manager_show_error_popup "Failed to create branch" out
     else ret tt) ;;
    lose_focus ;;
    modify (set_new_branch_textbox "") ;;
    refresh_git_status.

Definition checkout_branch : M unit :=
  b <- menu_get branch_menu ;;
  match b with
  | None => ret tt
  | Some b0 =>
      let branch := PyStr.slice_from 2 b0 in
      r <- call (git_checkout_branch branch) ;;
      let (out, err) := r in
      (if negb (Z.eqb err 0) then show_error_popup "Failed to checkout branch" out
       else show_message_popup "Checkout Successful" ("Checked out branch " ++ branch)) ;;
      refresh_git_status
  end.

(** ** The top-level manager: credentials and long operations *)









(** ** User input *)



End RepoControl.

(** ** Observations on the trace *)

(** The events a computation added when it took [s] to [s']. *)
Definition added (s s' : State) : list Event :=
  skipn (length (events s)) (events s').

(** The commands called in a piece of trace, in order. *)
Definition calls (evs : list Event) : list Cmd :=
  flat_map (fun e => match e with Call c _ _ => [c] | _ => [] end) evs.

Definition is_pull (c : Cmd) : bool :=
  match c with git_pull_branch _ _ _ => true | _ => false end.

Definition is_push (c : Cmd) : bool :=
  match c with git_push_to_branch _ _ _ => true | _ => false end.


Definition is_refresh_query (c : Cmd) : bool :=
  match c with
  | git_get_branches | git_get_remotes | git_status_short
  | git_get_recent_commits _ => true
  | _ => false
  end.




(** The queries every refresh starts with. *)
Definition refresh_queries : list Cmd :=
  [git_get_branches; git_get_remotes; git_status_short].

(** ** The settings screen *)

Module Settings.

Record Screen : Type := mkScreen {
  (* the top-level manager *)
  editor_type : string;
  default_editor : option string;
  (* the logger module *)
  log_enabled : bool;
  log_file_path : option string;
  (* widgets of the settings screen *)
  settings_info_panel : string;
  debug_log_status_label : string;
  editor_status_label : string
}.

Definition add_to_settings_log (txt : string) (s : Screen) : Screen :=
  mkScreen (editor_type s) (default_editor s) (log_enabled s) (log_file_path s)
    (txt ++ LF ++ settings_info_panel s)
    (debug_log_status_label s) (editor_status_label s).

Definition refresh_status (s : Screen) : Screen :=
  let logging_on_off := if log_enabled s then "ON" else "OFF" in
  mkScreen (editor_type s) (default_editor s) (log_enabled s) (log_file_path s)
    (settings_info_panel s)
    (logging_on_off ++ " - " ++ PyStr.str_of (log_file_path s))
    (editor_type s ++ " - " ++ PyStr.str_of (default_editor s)).

Definition set_editor_type (v : string) (s : Screen) : Screen :=
  mkScreen v (default_editor s) (log_enabled s) (log_file_path s)
    (settings_info_panel s) (debug_log_status_label s) (editor_status_label s).

Definition set_default_editor (v : option string) (s : Screen) : Screen :=
  mkScreen (editor_type s) v (log_enabled s) (log_file_path s)
    (settings_info_panel s) (debug_log_status_label s) (editor_status_label s).

Definition toggle_editor_type (s : Screen) : Screen :=
  let s1 := if String.eqb (editor_type s) "Internal"
            then set_editor_type "External" s
            else set_editor_type "Internal" s in
  refresh_status (add_to_settings_log "Swapped editor type" s1).

Definition update_default_editor (new_editor : string) (s : Screen) : Screen :=
  let s1 := set_default_editor (Some new_editor) s in
  let s2 := if String.eqb (editor_type s1) "Internal"
            then toggle_editor_type s1 else s1 in
  refresh_status
    (add_to_settings_log ("Update default editor to: " ++ new_editor) s2).

End Settings.

(** ** Notions used in the statements *)

(** [extends P m]: whatever happens, [m] only appends events, and each of
    them satisfies [P]. *)
Definition extends {A} (P : Event -> Prop) (m : M A) : Prop :=
  forall s, exists new,
    events (exec m s) = (events s ++ new)%list /\ Forall P new.

(** [preserves f m]: whatever happens, [m] leaves the component [f] of the
    state as it was. *)
Definition preserves {A X} (f : State -> X) (m : M A) : Prop :=
  forall s, f (exec m s) = f s.

(** What a query adds to the trace: its call, and the error popup when
    the status code is negative. *)
Definition query_trace (c : Cmd) (ttl out : string) (err : Z) : list Event :=
  Call c out err :: (if Z.ltb err 0 then [ErrorPopup ttl out] else []).

(** An event of a refresh: one of its four queries, or an error popup. *)
Definition refresh_event (e : Event) : Prop :=
  match e with
  | Call c _ _ => is_refresh_query c = true
  | ErrorPopup _ _ => True
  | _ => False
  end.

(** The last two statements of [refresh_git_status]. *)
Definition restore_selection (remote selected_file : nat) (s : State) : State :=
  let s1 := if Nat.ltb remote (length (view_items (remotes_menu s)))
            then set_remotes_menu (Menu.set_selected remote) s else s in
  if Nat.ltb selected_file (length (view_items (add_files_menu s1)))
  then set_add_files_menu (Menu.set_selected selected_file) s1 else s1.

(** What the derived commits query does from [s] to [s'], by the three
    answers [get()] can give on the branch panel. *)
Definition commits_step (run : Runner) (s s' : State) (o : Outcome unit)
    (tail : list Event) : Prop :=
  match Menu.get (branch_menu s) with
  | Ok (Some b) =>
      exists out err,
        run (events s) (git_get_recent_commits (PyStr.slice_from 2 b)) = (out, err)
        /\ tail = query_trace (git_get_recent_commits (PyStr.slice_from 2 b))
                    "Cannot get recent commits" out err
        /\ view_items (commits_menu s')
           = (if Z.ltb err 0 then view_items (commits_menu s) else PyStr.splitlines out)
        /\ o = Ok tt
  | Ok None => tail = [] /\ commits_menu s' = commits_menu s /\ o = Ok tt
  | Raise e => tail = [] /\ commits_menu s' = commits_menu s /\ o = Raise e
  end.

(** A query [op] that asks [c] fails cleanly in [s]: on a negative status
    code it returns with the state as it was, but for the call and an error
    popup titled [ttl] with the output as its text in the trace. *)
Definition fails_cleanly (run : Runner) (op : M unit) (c : Cmd) (ttl : string)
    (s : State) : Prop :=
  forall out err,
    run (events s) c = (out, err) -> (err < 0)%Z ->
    op s = (Ok tt, log_event (ErrorPopup ttl out) (log_event (Call c out err) s)).

(** An event that is neither a prompt nor a pull or push. *)
Definition quiet_event (e : Event) : Prop :=
  match e with
  | TextBoxPopup _ => False
  | Call c _ _ => is_pull c = false /\ is_push c = false
  | _ => True
  end.

(** The command the add/revert action sends for a changed-files entry. *)
Definition stage_or_unstage (filename : string) : Cmd :=
  if PyStr.startswith " " filename || PyStr.startswith "?" filename
  then git_add_file (PyStr.slice_from 3 filename)
  else git_reset_file (PyStr.slice_from 3 filename).



(** A line of the branch list bears the marker of the current branch. *)
Definition is_current (branch : string) : bool := PyStr.startswith "*" branch.

(** The decoding convention of the branch list: a successful answer to the
    branches query is empty or has a line that bears the marker. *)
Definition marks_current (run : Runner) : Prop :=
  forall evs out err,
    run evs git_get_branches = (out, err) -> (0 <= err)%Z ->
    PyStr.splitlines out = [] \/ existsb is_current (PyStr.splitlines out) = true.

(** ** The selection rule as the specification words it *)

(** "If the new item count still exceeds the snapshotted index, restore it,
    otherwise clamp to last valid index": the index the specification
    expects after a refresh, from the index before and the new item count. *)
Definition clamp_selection (prior count : nat) : nat :=
  if Nat.ltb prior count then prior else count - 1.

(** ** Sample sessions *)

Definition empty_menu : ScrollMenu := mkMenu [] 0.

(** The screen as it is created: empty panels, nothing entered. *)
Definition fresh_state : State :=
  mkState empty_menu empty_menu empty_menu empty_menu
    (mkTextBlock "" "Git Info") "" ""
    None (mkCredentials None None) None None
    "" 0%Z None "/home/user/repo" [].

(** A repository on branch main with two remotes and two changed files;
    every command succeeds. *)
Definition runner_ok : Runner :=
  fun _ c =>
    match c with
    | git_get_branches => ("* main" ++ LF ++ "  dev", 0%Z)
    | git_get_remotes => ("origin" ++ LF ++ "upstream", 0%Z)
    | git_status_short => (" M file.txt" ++ LF ++ "M  staged.txt", 0%Z)
    | git_get_recent_commits _ => ("1a2b3c4 Initial commit", 0%Z)
    | _ => ("done", 0%Z)
    end.

(** The same screen after a refresh, and with the cursor of the remotes
    panel on a third remote that has since been removed. *)
Definition loaded_state : State :=
  exec (refresh_git_status runner_ok) fresh_state.

Definition third_remote_state : State :=
  set_remotes_menu (fun _ => mkMenu ["origin"; "upstream"; "backup"] 2) loaded_state.

(** The repository has become unreachable: every query fails. *)
Definition runner_offline : Runner :=
  fun _ _ => ("fatal: not a git repository", (-1)%Z).

(** HEAD is on a branch that has no commit yet while two other branches
    exist: the branch list comes back with no current marker. *)
Definition runner_unborn : Runner :=
  fun _ c =>
    match c with
    | git_get_branches => ("  main" ++ LF ++ "  dev", 0%Z)
    | other => runner_ok [] other
    end.

(** The two branch lists of the specification's examples. *)
Definition runner_on_main : Runner :=
  fun _ c =>
    match c with
    | git_get_branches => ("* main" ++ LF ++ "  dev", 0%Z)
    | other => runner_ok [] other
    end.

Definition runner_on_dev : Runner :=
  fun _ c =>
    match c with
    | git_get_branches => ("  main" ++ LF ++ "* dev", 0%Z)
    | other => runner_ok [] other
    end.

(** Staging is refused: once with a negative status code, once with a
    positive one. *)
Definition runner_add_negative : Runner :=
  fun _ c =>
    match c with
    | git_add_file _ => ("error: unable to stage", (-1)%Z)
    | other => runner_ok [] other
    end.

Definition runner_add_positive : Runner :=
  fun _ c =>
    match c with
    | git_add_file _ => ("fatal: pathspec did not match any files", 128%Z)
    | other => runner_ok [] other
    end.

(** The cursor of the changed-files panel on the staged entry. *)
Definition staged_selected_state : State :=
  set_add_files_menu (Menu.set_selected 1) loaded_state.


(** An external editor is configured. *)
Definition editor_state : State := set_default_editor (Some "code") loaded_state.

(** A settings screen with the internal editor chosen. *)
Definition settings_internal : Settings.Screen :=
  Settings.mkScreen "Internal" None false (Some ".pyautogit/2020-03-01.log")
    "" "OFF - .pyautogit/2020-03-01.log" "Internal - None".

(** A commit message is typed in; the commit is refused in one session. *)
Definition message_typed_state : State :=
  set_commit_message_box "Fix the parser" loaded_state.

Definition runner_commit_refused : Runner :=
  fun _ c =>
    match c with
    | git_commit_changes _ => ("nothing to commit, working tree clean", 1%Z)
    | other => runner_ok [] other
    end.

(** Credentials are already held. *)
Definition signed_in_state : State :=
  set_credentials (mkCredentials (Some "ada") (Some "s3cret")) loaded_state.

(** ** Further notions: the other actions of the screen *)

(** The popup that reports how a checkout went. *)
Definition checkout_popup (branch out : string) (err : Z) : Event :=
  if Z.eqb err 0
  then MessagePopup "Checkout Successful" ("Checked out branch " ++ branch)
  else ErrorPopup "Failed to checkout branch" out.

(** The popup that reports how the editor launch went. *)
Definition editor_popup (ed dir out : string) (err : Z) : Event :=
  if Z.eqb err 0
  then MessagePopup ("Opened " ++ dir) ("Opened " ++ ed ++ " editor in external window")
  else ErrorPopup "Failed to open editor." out.

(** Whether a successful branch list leaves the scan past its end: it has
    entries and none of them bears the marker. *)
Definition unmarked_branches (out : string) (err : Z) : bool :=
  Z.leb 0 err
  && negb (Nat.eqb (length (PyStr.splitlines out)) 0)
  && negb (existsb is_current (PyStr.splitlines out)).

(** Error popups and failed calls in a piece of trace. *)
Definition is_error_popup (e : Event) : bool :=
  match e with ErrorPopup _ _ => true | _ => false end.

Definition is_failed_call (e : Event) : bool :=
  match e with Call _ _ err => Z.ltb err 0 | _ => false end.

(** Everything of the state that is neither one of the four list panels nor
    the trace. *)
Definition beside_panels (s : State) :=
  (info_text_block s, commit_message_box s, new_branch_textbox s,
   default_editor s, credentials s, post_input_callback s, popup s,
   message s, status s, utility_var s, cwd s).

(** A branch panel that was just read from a successful query. *)
Definition branches_from (answer : string) : ScrollMenu :=
  mkMenu (PyStr.splitlines answer) (scan_branches (PyStr.splitlines answer) 0).

(** The popup that reports how a pull went. *)
Definition pull_popup (branch : string) (remote : option string) (out : string)
    (err : Z) : Event :=
  if Z.eqb err 0
  then MessagePopup "Pulled branch"
         ("Successfully pulled branch " ++ branch ++ " from remote " ++ PyStr.str_of remote)
  else ErrorPopup "Failed to pull from remote" out.

(** The popup that reports how a push went. *)
Definition push_popup (out : string) (err : Z) : Event :=
  if Z.eqb err 0
  then MessagePopup "Pushed Successfully" out
  else ErrorPopup "Unable to push to remote!" out.

(** A push followed by the display of its result, as the long operation
    runs them. *)
Definition push_and_show_result (run : Runner) : M unit :=
  push_repo_branch run ;; show_push_result.

(** What a query into the info panel leaves in [s] for the answer
    [(out, err)] to its command [c]: on a negative status the error popup
    [fail] and the panel as it was, otherwise the output as the panel's text
    under the title [ttl]. *)
Definition info_shown (c : Cmd) (fail ttl out : string) (err : Z) (s : State) : State :=
  if Z.ltb err 0
  then log_event (ErrorPopup fail out) (log_event (Call c out err) s)
  else set_info_text_block (fun _ => mkTextBlock out ttl) (log_event (Call c out err) s).

(** A branch is selected and the remotes panel is empty. *)
Definition no_remotes_state : State :=
  set_remotes_menu (fun _ => empty_menu) loaded_state.

(** ** Refreshing an unchanged repository *)

(** The command runner answers without regard to what happened before: the
    repository does not change under the queries. *)
Definition history_independent (run : Runner) : Prop :=
  forall evs evs' c, run evs c = run evs' c.

(** A panel after its query came back with [answer]: untouched on a
    negative status, replaced otherwise, with the selection [sel] computes. *)
Definition refetched (answer : string * Z) (sel : list string -> nat)
    (m : ScrollMenu) : ScrollMenu :=
  if Z.ltb (snd answer) 0 then m
  else mkMenu (PyStr.splitlines (fst answer)) (sel (PyStr.splitlines (fst answer))).

(** The restore step of the refresh on one panel. *)
Definition restore_menu (prior : nat) (m : ScrollMenu) : ScrollMenu :=
  if Nat.ltb prior (length (view_items m)) then Menu.set_selected prior m else m.

Definition refreshed_branch (run : Runner) (m : ScrollMenu) : ScrollMenu :=
  refetched (run [] git_get_branches) (fun l => scan_branches l 0) m.

Definition refreshed_remotes (run : Runner) (m : ScrollMenu) : ScrollMenu :=
  restore_menu (selected_item m) (refetched (run [] git_get_remotes) (fun _ => 0) m).

Definition refreshed_files (run : Runner) (m : ScrollMenu) : ScrollMenu :=
  restore_menu (selected_item m) (refetched (run [] git_status_short) (fun _ => 0) m).

Definition refreshed_commits (run : Runner) (branches m : ScrollMenu) : ScrollMenu :=
  match Menu.get branches with
  | Ok (Some b) =>
      refetched (run [] (git_get_recent_commits (PyStr.slice_from 2 b))) (fun _ => 0) m
  | _ => m
  end.

(** ** The labels of the settings screen *)

(** Both status labels show what the state holds. *)
Definition labels_in_sync (s : Settings.Screen) : Prop :=
  Settings.editor_status_label s
  = Settings.editor_type s ++ " - " ++ PyStr.str_of (Settings.default_editor s)
  /\ Settings.debug_log_status_label s
     = (if Settings.log_enabled s then "ON" else "OFF")
       ++ " - " ++ PyStr.str_of (Settings.log_file_path s).

(** ** The state an action hands to the refresh *)

(** The screen after the create-branch command answered [(out, err)] for
    [name]: the call, the error popup when the status is not 0, the focus
    left and the name input emptied. *)
Definition after_create_branch (name out : string) (err : Z) (s : State) : State :=
  let called := log_event (Call (git_create_new_branch name) out err) s in
  set_new_branch_textbox ""
    (log_event LoseFocus
       (if Z.eqb err 0 then called
        else log_event (ErrorPopup "Failed to create branch" out) called)).

(** The screen after the checkout command answered for [branch]. *)
Definition after_checkout (branch out : string) (err : Z) (s : State) : State :=
  log_event (checkout_popup branch out err)
    (log_event (Call (git_checkout_branch branch) out err) s).

(** The screen after the pull command answered: the output and the pull
    title in the info panel for status 0 only, then the popup. *)
Definition after_pull (branch : string) (remote : option string) (out : string)
    (err : Z) (s : State) : State :=
  let called := log_event (Call (git_pull_branch branch remote (credentials s)) out err) s in
  log_event (pull_popup branch remote out err)
    (if Z.eqb err 0
     then set_info_text_block
            (fun _ => mkTextBlock out
                        ("Git Pull Status - " ++ PyStr.str_of remote ++ " - " ++ branch))
            called
     else called).

(** The screen after the push command answered: the answer is kept in the
    scratch fields. *)
Definition after_push (branch : string) (remote : option string) (out : string)
    (err : Z) (s : State) : State :=
  set_message_status out err
    (log_event (Call (git_push_to_branch branch remote (credentials s)) out err) s).

(** What the push and the display of its result leave, from the state [s2]
    the refresh returned. *)
Definition push_shown (out : string) (err : Z) (s2 : State) : State :=
  set_message_status "" 0
    (log_event (push_popup out err)
       (log_event StopLoadingPopup
          (set_info_text_block (fun t => mkTextBlock out (title t)) s2))).

(** The screen after the commit command answered status 0 for the message
    in the box. *)
Definition after_commit (out : string) (s : State) : State :=
  log_event (MessagePopup "Success" ("Committed: " ++ commit_message_box s))
    (log_event (Call (git_commit_changes (commit_message_box s)) out 0) s).

(** What the log query leaves from [s2], for the branch selected there. *)
Definition log_shown (run : Runner) (s2 : State) : State :=
  match Menu.get (branch_menu s2) with
  | Ok (Some b) =>
      let c := git_log (PyStr.slice_from 2 b) in
      info_shown c ("Unable to show git log for branch " ++ PyStr.slice_from 2 b ++ ".")
        "Git log" (fst (run (events s2) c)) (snd (run (events s2) c)) s2
  | _ => s2
  end.

(** ** Push and pull with no branch *)


(** * Properties *)

(** ** Lists and traces *)

Lemma skipn_length_app {A} (l new : list A) : skipn (length l) (l ++ new) = new.
Proof. induction l; simpl; auto. Qed.

Lemma added_app s s' new :
  events s' = (events s ++ new)%list -> added s s' = new.
Proof. unfold added. intros ->. apply skipn_length_app. Qed.

Lemma calls_app l1 l2 : calls (l1 ++ l2) = (calls l1 ++ calls l2)%list.
Proof. unfold calls. apply flat_map_app. Qed.

(** ** Python strings *)

(** [splitlines] on the shapes of output the panels receive: no trailing
    empty line, CR LF as one boundary, empty lines kept. *)
Lemma splitlines_examples :
  PyStr.splitlines "" = []
  /\ PyStr.splitlines ("* main" ++ LF ++ "  dev") = ["* main"; "  dev"]
  /\ PyStr.splitlines ("origin" ++ LF) = ["origin"]
  /\ PyStr.splitlines ("a" ++ LF ++ LF ++ "b") = ["a"; ""; "b"]
  /\ PyStr.splitlines ("a" ++ String (ascii_of_nat 13) LF ++ "b") = ["a"; "b"]
  /\ PyStr.splitlines LF = [""].
Proof. repeat split. Qed.

Lemma slice_from_examples :
  PyStr.slice_from 2 "* main" = "main"
  /\ PyStr.slice_from 3 " M file.txt" = "file.txt"
  /\ PyStr.slice_from 3 "ab" = "".
Proof. repeat split. Qed.

(** ** The monad *)

Lemma bind_ok {A B} (m : M A) (k : A -> M B) s a s' :
  m s = (Ok a, s') -> bind m k s = k a s'.
Proof. unfold bind. now intros ->. Qed.


Lemma bind_assoc {A B C} (m : M A) (k : A -> M B) (h : B -> M C) s :
  bind (bind m k) h s = bind m (fun a => bind (k a) h) s.
Proof. unfold bind. destruct (m s) as [[a|e] s']; reflexivity. Qed.

Lemma extends_bind {A B} P (m : M A) (k : A -> M B) :
  extends P m -> (forall a, extends P (k a)) -> extends P (bind m k).
Proof.
  intros Hm Hk s. destruct (Hm s) as (n1 & E1 & F1).
  unfold exec, bind in *. destruct (m s) as [[a|e] s1]; simpl in *.
  - destruct (Hk a s1) as (n2 & E2 & F2). unfold exec in E2.
    exists (n1 ++ n2)%list. split.
    + now rewrite E2, E1, app_assoc.
    + now apply Forall_app.
  - now exists n1.
Qed.

Lemma extends_still {A} P (m : M A) :
  (forall s, events (exec m s) = events s) -> extends P m.
Proof. intros H s. exists []. now rewrite H, app_nil_r. Qed.

Lemma extends_log P (e : Event) : P e -> extends P (modify (log_event e)).
Proof. intros H s. exists [e]. split; [reflexivity | now constructor]. Qed.

Lemma extends_call P run c :
  (forall out err, P (Call c out err)) -> extends P (call run c).
Proof. intros H s. eexists. split; [reflexivity | constructor; auto]. Qed.

Lemma extends_text_box P ttl cb :
  P (TextBoxPopup ttl) -> extends P (show_text_box_popup ttl cb).
Proof. intros H s. exists [TextBoxPopup ttl]. split; [reflexivity | now constructor]. Qed.

Lemma preserves_bind {A B X} (f : State -> X) (m : M A) (k : A -> M B) :
  preserves f m -> (forall a, preserves f (k a)) -> preserves f (bind m k).
Proof.
  intros Hm Hk s. specialize (Hm s).
  unfold exec, bind in *. destruct (m s) as [[a|e] s1]; simpl in *; auto.
  rewrite <- Hm. apply (Hk a s1).
Qed.

Lemma preserves_modify {X} (f : State -> X) (g : State -> State) :
  (forall s, f (g s) = f s) -> preserves f (modify g).
Proof. intros H s. apply H. Qed.

Lemma preserves_still {A X} (f : State -> X) (m : M A) :
  (forall s, exec m s = s) -> preserves f m.
Proof. intros H s. now rewrite H. Qed.

Ltac split_match :=
  match goal with
  | |- _ (let (_, _) := ?r in _) => destruct r
  | |- _ (if ?b then _ else _) => destruct b
  | |- _ (match ?v with Some _ => _ | None => _ end) => destruct v
  end.

Ltac extends_with known :=
  repeat first
    [ known
    | apply extends_bind; [ | intro ]
    | apply extends_call; intros; simpl; now auto
    | apply extends_log; simpl; now auto
    | apply extends_text_box; simpl; now auto
    | apply extends_still; intros [? ? ? ? ? ? ? ? ? ? ? ? ? ? ? ?]; reflexivity
    | split_match ].

Ltac extends_tac := extends_with fail.

Ltac preserves_tac :=
  repeat first
    [ apply preserves_bind; [ | intro ]
    | apply preserves_modify; intros [? ? ? ? ? ? ? ? ? ? ? ? ? ? ? ?]; reflexivity
    | apply preserves_still; intros [? ? ? ? ? ? ? ? ? ? ? ? ? ? ? ?]; reflexivity
    | split_match ].

Section Queries.

Variable run : Runner.

(** *** The three unconditional queries *)

Lemma get_repo_branches_eq s out err :
  run (events s) git_get_branches = (out, err) ->
  get_repo_branches run s =
    (Ok tt,
     if Z.ltb err 0
     then log_event (ErrorPopup "Cannot get git branches" out)
            (log_event (Call git_get_branches out err) s)
     else set_branch_menu
            (fun _ => mkMenu (PyStr.splitlines out)
                        (scan_branches (PyStr.splitlines out) 0))
            (log_event (Call git_get_branches out err) s)).
Proof.
  intros E. unfold get_repo_branches, bind, call. rewrite E. simpl fst; simpl snd.
  destruct (Z.ltb err 0); reflexivity.
Qed.

Lemma get_repo_remotes_eq s out err :
  run (events s) git_get_remotes = (out, err) ->
  get_repo_remotes run s =
    (Ok tt,
     if Z.ltb err 0
     then log_event (ErrorPopup "Cannot get git remotes" out)
            (log_event (Call git_get_remotes out err) s)
     else set_remotes_menu (fun _ => mkMenu (PyStr.splitlines out) 0)
            (log_event (Call git_get_remotes out err) s)).
Proof.
  intros E. unfold get_repo_remotes, bind, call. rewrite E. simpl fst; simpl snd.
  destruct (Z.ltb err 0); reflexivity.
Qed.

Lemma get_repo_status_short_eq s out err :
  run (events s) git_status_short = (out, err) ->
  get_repo_status_short run s =
    (Ok tt,
     if Z.ltb err 0
     then log_event (ErrorPopup "Cannot get git status" out)
            (log_event (Call git_status_short out err) s)
     else set_add_files_menu (fun _ => mkMenu (PyStr.splitlines out) 0)
            (log_event (Call git_status_short out err) s)).
Proof.
  intros E. unfold get_repo_status_short, bind, call. rewrite E. simpl fst; simpl snd.
  destruct (Z.ltb err 0); reflexivity.
Qed.

(** *** The derived commits panel *)

Lemma get_recent_commits_none s :
  Menu.get (branch_menu s) = Ok None -> get_recent_commits run s = (Ok tt, s).
Proof. intros E. unfold get_recent_commits, bind, menu_get. now rewrite E. Qed.

Lemma get_recent_commits_raise s e :
  Menu.get (branch_menu s) = Raise e -> get_recent_commits run s = (Raise e, s).
Proof. intros E. unfold get_recent_commits, bind, menu_get. now rewrite E. Qed.

Lemma get_recent_commits_eq s b out err :
  Menu.get (branch_menu s) = Ok (Some b) ->
  run (events s) (git_get_recent_commits (PyStr.slice_from 2 b)) = (out, err) ->
  get_recent_commits run s =
    (Ok tt,
     if Z.ltb err 0
     then log_event (ErrorPopup "Cannot get recent commits" out)
            (log_event (Call (git_get_recent_commits (PyStr.slice_from 2 b)) out err) s)
     else set_commits_menu (fun _ => mkMenu (PyStr.splitlines out) 0)
            (log_event (Call (git_get_recent_commits (PyStr.slice_from 2 b)) out err) s)).
Proof.
  intros G E. unfold get_recent_commits, bind, menu_get, call. rewrite G.
  cbv beta iota. rewrite G. cbv beta iota delta [subscript_from ret].
  rewrite E. simpl fst; simpl snd.
  destruct (Z.ltb err 0); reflexivity.
Qed.

(** *** The refresh *)

Lemma refresh_git_status_unfold s :
  refresh_git_status run s =
    let s1 := exec (get_repo_branches run) s in
    let s2 := exec (get_repo_remotes run) s1 in
    let s3 := exec (get_repo_status_short run) s2 in
    match get_recent_commits run s3 with
    | (Ok _, s4) =>
        (Ok tt, restore_selection (selected_item (remotes_menu s))
                  (selected_item (add_files_menu s)) s4)
    | (Raise e, s4) => (Raise e, s4)
    end.
Proof.
  unfold refresh_git_status, exec, bind at 1 2 3. simpl.
  destruct (run (events s) git_get_branches) as [ob eb] eqn:Eb.
  rewrite (get_repo_branches_eq _ _ _ Eb). simpl snd.
  set (s1 := if Z.ltb eb 0 then _ else _).
  unfold bind at 1.
  destruct (run (events s1) git_get_remotes) as [orr er] eqn:Er.
  rewrite (get_repo_remotes_eq _ _ _ Er). simpl snd.
  set (s2 := if Z.ltb er 0 then _ else _).
  unfold bind at 1.
  destruct (run (events s2) git_status_short) as [os es] eqn:Es.
  rewrite (get_repo_status_short_eq _ _ _ Es). simpl snd.
  set (s3 := if Z.ltb es 0 then _ else _).
  unfold bind at 1.
  destruct (get_recent_commits run s3) as [[[]|e] s4]; [|reflexivity].
  unfold restore_selection, bind, gets, modify, ret, Menu.get_item_list. simpl.
  destruct (Nat.ltb _ _); simpl; destruct (Nat.ltb _ _); reflexivity.
Qed.

End Queries.

(** ** The trace and the panels of a refresh *)

Section RefreshTrace.

Variable run : Runner.

Lemma commits_keeps_panels :
  preserves (fun s => (branch_menu s, remotes_menu s, add_files_menu s))
    (get_recent_commits run).
Proof.
  unfold get_recent_commits, show_error_popup, subscript_from, call. preserves_tac.
Qed.

Lemma calls_query_trace c ttl out err : calls (query_trace c ttl out err) = [c].
Proof. unfold query_trace. destruct (Z.ltb err 0); reflexivity. Qed.

Lemma restore_selection_keeps r f s :
  events (restore_selection r f s) = events s
  /\ branch_menu (restore_selection r f s) = branch_menu s
  /\ commits_menu (restore_selection r f s) = commits_menu s
  /\ view_items (remotes_menu (restore_selection r f s)) = view_items (remotes_menu s)
  /\ view_items (add_files_menu (restore_selection r f s)) = view_items (add_files_menu s).
Proof.
  unfold restore_selection.
  destruct (Nat.ltb r _); simpl; destruct (Nat.ltb f _); simpl; auto.
Qed.

Lemma get_recent_commits_step s :
  exists tail,
    events (exec (get_recent_commits run) s) = (events s ++ tail)%list
    /\ commits_step run s (exec (get_recent_commits run) s)
         (outcome (get_recent_commits run) s) tail.
Proof.
  unfold commits_step, exec, outcome.
  destruct (Menu.get (branch_menu s)) as [[b|]|e] eqn:G.
  - destruct (run (events s) (git_get_recent_commits (PyStr.slice_from 2 b)))
      as [out err] eqn:E.
    rewrite (get_recent_commits_eq run s b out err G E). simpl fst; simpl snd.
    exists (query_trace (git_get_recent_commits (PyStr.slice_from 2 b))
              "Cannot get recent commits" out err).
    unfold query_trace. split.
    + destruct (Z.ltb err 0); simpl; rewrite <- ?app_assoc; reflexivity.
    + exists out, err. destruct (Z.ltb err 0); simpl; auto.
  - rewrite (get_recent_commits_none run s G). exists []. simpl.
    now rewrite app_nil_r.
  - rewrite (get_recent_commits_raise run s e G). exists []. simpl.
    now rewrite app_nil_r.
Qed.

(** The state after the three unconditional queries of a refresh. *)
Lemma refresh_git_status_fetches s :
  exists ob eb orr er os es s3,
    run (events s) git_get_branches = (ob, eb)
    /\ events s3
      = (events s
         ++ query_trace git_get_branches "Cannot get git branches" ob eb
         ++ query_trace git_get_remotes "Cannot get git remotes" orr er
         ++ query_trace git_status_short "Cannot get git status" os es)%list
    /\ branch_menu s3
       = (if Z.ltb eb 0 then branch_menu s
          else mkMenu (PyStr.splitlines ob) (scan_branches (PyStr.splitlines ob) 0))
    /\ view_items (remotes_menu s3)
       = (if Z.ltb er 0 then view_items (remotes_menu s) else PyStr.splitlines orr)
    /\ view_items (add_files_menu s3)
       = (if Z.ltb es 0 then view_items (add_files_menu s) else PyStr.splitlines os)
    /\ commits_menu s3 = commits_menu s
    /\ refresh_git_status run s
       = match get_recent_commits run s3 with
         | (Ok _, s4) =>
             (Ok tt, restore_selection (selected_item (remotes_menu s))
                       (selected_item (add_files_menu s)) s4)
         | (Raise e, s4) => (Raise e, s4)
         end.
Proof.
  rewrite refresh_git_status_unfold. cbv zeta.
  destruct (run (events s) git_get_branches) as [ob eb] eqn:Eb.
  unfold exec at 3. rewrite (get_repo_branches_eq run s ob eb Eb). simpl snd.
  set (s1 := if Z.ltb eb 0 then _ else _).
  destruct (run (events s1) git_get_remotes) as [orr er] eqn:Er.
  unfold exec at 2. rewrite (get_repo_remotes_eq run s1 orr er Er). simpl snd.
  set (s2 := if Z.ltb er 0 then _ else _).
  destruct (run (events s2) git_status_short) as [os es] eqn:Es.
  unfold exec at 1. rewrite (get_repo_status_short_eq run s2 os es Es). simpl snd.
  set (s3 := if Z.ltb es 0 then _ else _).
  exists ob, eb, orr, er, os, es, s3.
  split; [reflexivity|].
  split; [|split; [|split; [|split; [|split; [|reflexivity]]]]];
    subst s3 s2 s1; unfold query_trace;
    destruct (Z.ltb eb 0), (Z.ltb er 0), (Z.ltb es 0); simpl;
    rewrite <- ?app_assoc; reflexivity.
Qed.

(** The whole refresh: the three unconditional queries in their order,
    each with its own panel replaced or left alone by the sign of its own
    status code, then the commits query on the branch panel they left. *)
Lemma refresh_git_status_trace s :
  exists ob eb orr er os es tail,
    let s' := exec (refresh_git_status run) s in
    run (events s) git_get_branches = (ob, eb)
    /\ added s s'
      = (query_trace git_get_branches "Cannot get git branches" ob eb
         ++ query_trace git_get_remotes "Cannot get git remotes" orr er
         ++ query_trace git_status_short "Cannot get git status" os es
         ++ tail)%list
    /\ branch_menu s'
       = (if Z.ltb eb 0 then branch_menu s
          else mkMenu (PyStr.splitlines ob) (scan_branches (PyStr.splitlines ob) 0))
    /\ view_items (remotes_menu s')
       = (if Z.ltb er 0 then view_items (remotes_menu s) else PyStr.splitlines orr)
    /\ view_items (add_files_menu s')
       = (if Z.ltb es 0 then view_items (add_files_menu s) else PyStr.splitlines os)
    /\ (exists s3, branch_menu s3 = branch_menu s'
                   /\ commits_menu s3 = commits_menu s
                   /\ events s3
                      = (events s
                         ++ query_trace git_get_branches "Cannot get git branches" ob eb
                         ++ query_trace git_get_remotes "Cannot get git remotes" orr er
                         ++ query_trace git_status_short "Cannot get git status" os es)%list
                   /\ commits_step run s3 s' (outcome (refresh_git_status run) s) tail).
Proof.
  destruct (refresh_git_status_fetches s)
    as (ob & eb & orr & er & os & es & s3 & Eb & E3 & B3 & R3 & F3 & C3 & EQ).
  destruct (get_recent_commits_step s3) as (tail & Et & St).
  exists ob, eb, orr, er, os, es, tail.
  assert (K := commits_keeps_panels s3).
  unfold exec, outcome in *. cbv zeta. rewrite EQ.
  destruct (get_recent_commits run s3) as [[[]|e] s4]; simpl in Et, St, K;
    injection K as Kb Kr Kf; simpl fst; simpl snd.
  - destruct (restore_selection_keeps (selected_item (remotes_menu s))
                (selected_item (add_files_menu s)) s4) as (Ke & Kb' & Kc & Kr' & Kf').
    split; [exact Eb|].
    split; [apply added_app; rewrite Ke, Et, E3, <- !app_assoc; reflexivity|].
    split; [now rewrite Kb', Kb|]. split; [now rewrite Kr', Kr|].
    split; [now rewrite Kf', Kf|].
    exists s3. split; [now rewrite Kb', Kb|]. split; [exact C3|]. split; [exact E3|].
    unfold commits_step in *. rewrite Kc. exact St.
  - split; [exact Eb|].
    split; [apply added_app; rewrite Et, E3, <- !app_assoc; reflexivity|].
    split; [now rewrite Kb|]. split; [now rewrite Kr|]. split; [now rewrite Kf|].
    exists s3. split; [now rewrite Kb|]. split; [exact C3|]. split; [exact E3|].
    exact St.
Qed.

End RefreshTrace.

(** ** Selection across a refresh *)

Section Selection.

Variable run : Runner.

Lemma branches_keeps_other_panels :
  preserves (fun s => (remotes_menu s, add_files_menu s)) (get_repo_branches run).
Proof. unfold get_repo_branches, show_error_popup, call. preserves_tac. Qed.

Lemma remotes_keeps_other_panels :
  preserves (fun s => (branch_menu s, add_files_menu s)) (get_repo_remotes run).
Proof. unfold get_repo_remotes, show_error_popup, call. preserves_tac. Qed.

Lemma status_keeps_other_panels :
  preserves (fun s => (branch_menu s, remotes_menu s)) (get_repo_status_short run).
Proof. unfold get_repo_status_short, show_error_popup, call. preserves_tac. Qed.

(** A refetched or untouched panel, once the prior index is restored when
    it is in range, has the prior index or 0. *)
Lemma restored_index (prior : nat) (old new : ScrollMenu) (refetched : bool) items :
  Menu.valid old -> prior = selected_item old ->
  new = (if refetched then mkMenu items 0 else old) ->
  let final := if Nat.ltb prior (length (view_items new))
               then Menu.set_selected prior new else new in
  selected_item final
    = (if Nat.ltb prior (length (view_items final)) then prior else 0)
  /\ Menu.valid final.
Proof.
  intros V -> ->. unfold Menu.valid in *.
  destruct refetched; simpl.
  - destruct (Nat.ltb_spec (selected_item old) (length items)) as [L|L]; simpl.
    + apply Nat.ltb_lt in L as L'. rewrite L'. auto.
    + apply Nat.ltb_ge in L as L'. rewrite L'. split; auto.
      destruct items; simpl; [right; auto | left; lia].
  - destruct (Nat.ltb_spec (selected_item old) (length (view_items old))) as [L|L]; simpl.
    + apply Nat.ltb_lt in L as L'. rewrite L'. auto.
    + apply Nat.ltb_ge in L as L'. rewrite L'.
      destruct V as [V|[V1 V2]]; [lia|]. split; auto.
Qed.

Lemma remotes_after_fetch s :
  exists refetched items,
    remotes_menu (exec (get_repo_remotes run) s)
    = if refetched : bool then mkMenu items 0 else remotes_menu s.
Proof.
  destruct (run (events s) git_get_remotes) as [out err] eqn:E.
  unfold exec. rewrite (get_repo_remotes_eq _ _ _ _ E). simpl snd.
  destruct (Z.ltb err 0).
  - now exists false, [].
  - now exists true, (PyStr.splitlines out).
Qed.

Lemma files_after_fetch s :
  exists refetched items,
    add_files_menu (exec (get_repo_status_short run) s)
    = if refetched : bool then mkMenu items 0 else add_files_menu s.
Proof.
  destruct (run (events s) git_status_short) as [out err] eqn:E.
  unfold exec. rewrite (get_repo_status_short_eq _ _ _ _ E). simpl snd.
  destruct (Z.ltb err 0).
  - now exists false, [].
  - now exists true, (PyStr.splitlines out).
Qed.

Lemma restore_selection_remotes r f s :
  remotes_menu (restore_selection r f s)
  = if Nat.ltb r (length (view_items (remotes_menu s)))
    then Menu.set_selected r (remotes_menu s) else remotes_menu s.
Proof.
  unfold restore_selection.
  destruct (Nat.ltb r _); destruct (Nat.ltb f _); reflexivity.
Qed.

Lemma restore_selection_files r f s :
  add_files_menu (restore_selection r f s)
  = if Nat.ltb f (length (view_items (add_files_menu s)))
    then Menu.set_selected f (add_files_menu s) else add_files_menu s.
Proof.
  unfold restore_selection.
  destruct (Nat.ltb r _); simpl; destruct (Nat.ltb f _); reflexivity.
Qed.

(** The panels a completed refresh leaves, before the selection is
    restored: refetched with the selection at 0, or untouched. *)
Lemma refresh_git_status_panels s s' :
  refresh_git_status run s = (Ok tt, s') ->
  exists s4 fr ir ff fi,
    s' = restore_selection (selected_item (remotes_menu s))
           (selected_item (add_files_menu s)) s4
    /\ remotes_menu s4 = (if fr : bool then mkMenu ir 0 else remotes_menu s)
    /\ add_files_menu s4 = (if ff : bool then mkMenu fi 0 else add_files_menu s).
Proof.
  rewrite refresh_git_status_unfold. cbv zeta.
  set (s1 := exec (get_repo_branches run) s).
  set (s2 := exec (get_repo_remotes run) s1).
  set (s3 := exec (get_repo_status_short run) s2).
  destruct (get_recent_commits run s3) as [[[]|e] s4] eqn:E4; [|discriminate].
  intros H. injection H as <-.
  assert (K4 := commits_keeps_panels run s3). unfold exec in K4.
  rewrite E4 in K4. simpl in K4. injection K4 as _ K4r K4f.
  assert (K3 := status_keeps_other_panels s2). fold s3 in K3.
  simpl in K3. injection K3 as _ K3r.
  assert (K2 := remotes_keeps_other_panels s1). fold s2 in K2.
  simpl in K2. injection K2 as _ K2f.
  assert (K1 := branches_keeps_other_panels s). fold s1 in K1.
  simpl in K1. injection K1 as K1r K1f.
  destruct (remotes_after_fetch s1) as (fr & ir & Fr). fold s2 in Fr.
  destruct (files_after_fetch s2) as (ff & fi & Ff). fold s3 in Ff.
  exists s4, fr, ir, ff, fi. split; [reflexivity|]. split.
  - rewrite K4r, K3r, Fr, K1r. reflexivity.
  - rewrite K4f, Ff, K2f, K1f. reflexivity.
Qed.

End Selection.

(** C2, as amended: when a refresh completes on panels that satisfy the
    panel invariant, the selected index of the remotes panel and of the
    changed-files panel is the index from before the refresh if that index is
    below the new item count, and 0 otherwise (the selection is reset, not
    clamped to the last index); both panels satisfy the invariant again, so
    no non-empty panel is left with an index outside its items. *)
Theorem refresh_restores_or_resets_selection (run : Runner) (s s' : State) :
  refresh_git_status run s = (Ok tt, s') ->
  Menu.valid (remotes_menu s) ->
  Menu.valid (add_files_menu s) ->
  selected_item (remotes_menu s')
    = (if Nat.ltb (selected_item (remotes_menu s))
                  (length (view_items (remotes_menu s')))
       then selected_item (remotes_menu s) else 0)
  /\ selected_item (add_files_menu s')
    = (if Nat.ltb (selected_item (add_files_menu s))
                  (length (view_items (add_files_menu s')))
       then selected_item (add_files_menu s) else 0)
  /\ Menu.valid (remotes_menu s')
  /\ Menu.valid (add_files_menu s').
Proof.
  intros H Vr Vf.
  destruct (refresh_git_status_panels run s s' H) as (s4 & fr & ir & ff & fi & -> & Er & Ef).
  rewrite restore_selection_remotes, restore_selection_files.
  destruct (restored_index (selected_item (remotes_menu s)) (remotes_menu s)
              (remotes_menu s4) fr ir Vr eq_refl Er) as [R1 R2].
  destruct (restored_index (selected_item (add_files_menu s)) (add_files_menu s)
              (add_files_menu s4) ff fi Vf eq_refl Ef) as [F1 F2].
  cbv zeta in R1, R2, F1, F2. auto.
Qed.

Lemma refresh_restores_or_resets_selection_witness :
  refresh_git_status runner_ok third_remote_state
    = (Ok tt, exec (refresh_git_status runner_ok) third_remote_state)
  /\ Menu.valid (remotes_menu third_remote_state)
  /\ Menu.valid (add_files_menu third_remote_state)
  /\ selected_item (remotes_menu third_remote_state) = 2
  /\ selected_item (remotes_menu (exec (refresh_git_status runner_ok) third_remote_state)) = 0
  /\ Menu.valid (remotes_menu (exec (refresh_git_status runner_ok) third_remote_state)).
Proof.
  assert (H : refresh_git_status runner_ok third_remote_state
              = (Ok tt, exec (refresh_git_status runner_ok) third_remote_state))
    by (vm_compute; reflexivity).
  assert (Vr : Menu.valid (remotes_menu third_remote_state))
    by (left; vm_compute; lia).
  assert (Vf : Menu.valid (add_files_menu third_remote_state))
    by (left; vm_compute; lia).
  destruct (refresh_restores_or_resets_selection runner_ok third_remote_state _ H Vr Vf)
    as (R & _ & V & _).
  split; [exact H|]. split; [exact Vr|]. split; [exact Vf|].
  split; [vm_compute; reflexivity|]. split; [|exact V].
  rewrite R. vm_compute. reflexivity.
Defined.

(** C2, as stated, fails: with the cursor on the third of three remotes and
    two remotes left after the refresh, the selection is 0, while clamping
    to the last valid index gives 1. *)
Lemma refresh_does_not_clamp_selection :
  refresh_git_status runner_ok third_remote_state
    = (Ok tt, exec (refresh_git_status runner_ok) third_remote_state)
  /\ selected_item (remotes_menu third_remote_state) = 2
  /\ view_items (remotes_menu (exec (refresh_git_status runner_ok) third_remote_state))
     = ["origin"; "upstream"]
  /\ selected_item (remotes_menu (exec (refresh_git_status runner_ok) third_remote_state)) = 0
  /\ selected_item (remotes_menu (exec (refresh_git_status runner_ok) third_remote_state))
     <> clamp_selection
          (selected_item (remotes_menu third_remote_state))
          (length (view_items
                     (remotes_menu (exec (refresh_git_status runner_ok) third_remote_state)))).
Proof.
  split; [vm_compute; reflexivity|]. split; [vm_compute; reflexivity|].
  split; [vm_compute; reflexivity|]. split; vm_compute; [reflexivity | discriminate].
Qed.

(** ** Failing queries *)

Lemma refresh_keeps_info run : preserves info_text_block (refresh_git_status run).
Proof.
  unfold refresh_git_status, get_repo_branches, get_repo_remotes,
    get_repo_status_short, get_recent_commits, show_error_popup, subscript_from, call.
  preserves_tac.
Qed.


Section QueryFailures.

Variable run : Runner.

Lemma status_short_fails_cleanly s :
  fails_cleanly run (get_repo_status_short run) git_status_short
    "Cannot get git status" s.
Proof.
  intros out err E L. rewrite (get_repo_status_short_eq run s out err E).
  apply Z.ltb_lt in L. now rewrite L.
Qed.

Lemma remotes_fails_cleanly s :
  fails_cleanly run (get_repo_remotes run) git_get_remotes
    "Cannot get git remotes" s.
Proof.
  intros out err E L. rewrite (get_repo_remotes_eq run s out err E).
  apply Z.ltb_lt in L. now rewrite L.
Qed.

Lemma branches_fails_cleanly s :
  fails_cleanly run (get_repo_branches run) git_get_branches
    "Cannot get git branches" s.
Proof.
  intros out err E L. rewrite (get_repo_branches_eq run s out err E).
  apply Z.ltb_lt in L. now rewrite L.
Qed.

Lemma recent_commits_fails_cleanly s b :
  Menu.get (branch_menu s) = Ok (Some b) ->
  fails_cleanly run (get_recent_commits run)
    (git_get_recent_commits (PyStr.slice_from 2 b)) "Cannot get recent commits" s.
Proof.
  intros G out err E L. rewrite (get_recent_commits_eq run s b out err G E).
  apply Z.ltb_lt in L. now rewrite L.
Qed.

Lemma remote_info_fails_cleanly s b remote :
  Menu.get (branch_menu s) = Ok (Some b) ->
  Menu.get (remotes_menu s) = Ok remote ->
  fails_cleanly run (show_remote_info run) (git_get_remote_info remote)
    "Cannot get remote info" s.
Proof.
  intros Gb Gr out err E L. apply Z.ltb_lt in L.
  unfold show_remote_info, bind, menu_get, call. rewrite Gb. cbv beta iota.
  rewrite Gr. cbv beta iota. rewrite E. simpl fst; simpl snd. now rewrite L.
Qed.

End QueryFailures.

(** C5: each of the five queries (status-short, remotes, branches, recent
    commits, remote info), when the command runner answers with a negative
    status code, returns with every panel and the info panel as they were and
    adds to the trace only its call and an error popup that names the query
    and carries the output.  Within a full refresh the three unconditional
    queries are all asked, in the order branches, remotes, status-short,
    whatever their status codes; each failed one shows its popup and leaves
    its own panel's items alone, each successful one replaces them; the info
    panel is not touched; and the commits query is asked for the selected
    branch and behaves the same. *)
Theorem query_failure_leaves_panel_and_refresh_continues (run : Runner) (s : State) :
  fails_cleanly run (get_repo_status_short run) git_status_short
    "Cannot get git status" s
  /\ fails_cleanly run (get_repo_remotes run) git_get_remotes
       "Cannot get git remotes" s
  /\ fails_cleanly run (get_repo_branches run) git_get_branches
       "Cannot get git branches" s
  /\ (forall b,
        Menu.get (branch_menu s) = Ok (Some b) ->
        fails_cleanly run (get_recent_commits run)
          (git_get_recent_commits (PyStr.slice_from 2 b))
          "Cannot get recent commits" s)
  /\ (forall b remote,
        Menu.get (branch_menu s) = Ok (Some b) ->
        Menu.get (remotes_menu s) = Ok remote ->
        fails_cleanly run (show_remote_info run) (git_get_remote_info remote)
          "Cannot get remote info" s)
  /\ (let s' := exec (refresh_git_status run) s in
      exists ob eb orr er os es tail,
        added s s'
          = (query_trace git_get_branches "Cannot get git branches" ob eb
             ++ query_trace git_get_remotes "Cannot get git remotes" orr er
             ++ query_trace git_status_short "Cannot get git status" os es
             ++ tail)%list
        /\ view_items (branch_menu s')
           = (if Z.ltb eb 0 then view_items (branch_menu s) else PyStr.splitlines ob)
        /\ view_items (remotes_menu s')
           = (if Z.ltb er 0 then view_items (remotes_menu s) else PyStr.splitlines orr)
        /\ view_items (add_files_menu s')
           = (if Z.ltb es 0 then view_items (add_files_menu s) else PyStr.splitlines os)
        /\ info_text_block s' = info_text_block s
        /\ (forall b,
              Menu.get (branch_menu s') = Ok (Some b) ->
              exists oc ec,
                tail = query_trace (git_get_recent_commits (PyStr.slice_from 2 b))
                         "Cannot get recent commits" oc ec
                /\ view_items (commits_menu s')
                   = (if Z.ltb ec 0 then view_items (commits_menu s)
                      else PyStr.splitlines oc)
                /\ outcome (refresh_git_status run) s = Ok tt)).
Proof.
  split; [apply status_short_fails_cleanly|].
  split; [apply remotes_fails_cleanly|].
  split; [apply branches_fails_cleanly|].
  split; [intros b; apply recent_commits_fails_cleanly|].
  split; [intros b remote; apply remote_info_fails_cleanly|].
  cbv zeta.
  destruct (refresh_git_status_trace run s)
    as (ob & eb & orr & er & os & es & tail & _ & T & B & R & F & s3 & B3 & C3 & E3 & St).
  exists ob, eb, orr, er, os, es, tail.
  split; [exact T|]. split; [rewrite B; now destruct (Z.ltb eb 0)|].
  split; [exact R|]. split; [exact F|]. split; [apply refresh_keeps_info|].
  intros b G. unfold commits_step, Menu.get in St. unfold Menu.get in G.
  rewrite B3, G in St. destruct St as (oc & ec & _ & Ht & Hc & Ho).
  exists oc, ec. rewrite C3 in Hc. auto.
Qed.

Lemma query_failure_leaves_panel_and_refresh_continues_witness :
  get_repo_status_short runner_offline loaded_state
    = (Ok tt, log_event (ErrorPopup "Cannot get git status" "fatal: not a git repository")
                (log_event (Call git_status_short "fatal: not a git repository" (-1))
                   loaded_state))
  /\ get_repo_remotes runner_offline loaded_state
    = (Ok tt, log_event (ErrorPopup "Cannot get git remotes" "fatal: not a git repository")
                (log_event (Call git_get_remotes "fatal: not a git repository" (-1))
                   loaded_state))
  /\ get_repo_branches runner_offline loaded_state
    = (Ok tt, log_event (ErrorPopup "Cannot get git branches" "fatal: not a git repository")
                (log_event (Call git_get_branches "fatal: not a git repository" (-1))
                   loaded_state))
  /\ get_recent_commits runner_offline loaded_state
    = (Ok tt, log_event (ErrorPopup "Cannot get recent commits" "fatal: not a git repository")
                (log_event (Call (git_get_recent_commits "main")
                              "fatal: not a git repository" (-1))
                   loaded_state))
  /\ show_remote_info runner_offline loaded_state
    = (Ok tt, log_event (ErrorPopup "Cannot get remote info" "fatal: not a git repository")
                (log_event (Call (git_get_remote_info (Some "origin"))
                              "fatal: not a git repository" (-1))
                   loaded_state))
  /\ outcome (refresh_git_status runner_offline) loaded_state = Ok tt.
Proof.
  destruct (query_failure_leaves_panel_and_refresh_continues runner_offline loaded_state)
    as (H1 & H2 & H3 & H4 & H5 & H6).
  cbv zeta in H6.
  destruct H6 as (ob & eb & orr & er & os & es & tail & _ & _ & _ & _ & _ & H6).
  assert (G : Menu.get (branch_menu (exec (refresh_git_status runner_offline) loaded_state))
              = Ok (Some "* main")) by (vm_compute; reflexivity).
  destruct (H6 "* main" G) as (oc & ec & _ & _ & O).
  split; [apply H1; [reflexivity | lia]|].
  split; [apply H2; [reflexivity | lia]|].
  split; [apply H3; [reflexivity | lia]|].
  split; [apply (H4 "* main"); [vm_compute; reflexivity | reflexivity | lia]|].
  split; [|exact O].
  apply (H5 "* main" (Some "origin")); [vm_compute; reflexivity .. | reflexivity | lia].
Defined.

(** ** The selection of the branch panel *)

(** The loop of [get_repo_branches] stops at the first marked entry, and
    runs off the end of a list that has none. *)
Lemma scan_branches_first_marked items k i branch :
  nth_error items i = Some branch ->
  is_current branch = true ->
  (forall j b, j < i -> nth_error items j = Some b -> is_current b = false) ->
  scan_branches items k = k + i.
Proof.
  revert k i. induction items as [|b rest IH]; intros k i Hn Hc Hbefore.
  - destruct i; discriminate.
  - destruct i as [|i]; simpl in *.
    + injection Hn as ->. unfold is_current in Hc. rewrite Hc. lia.
    + assert (Hb : is_current b = false) by (apply (Hbefore 0 b); [lia | reflexivity]).
      unfold is_current in Hb. rewrite Hb.
      rewrite (IH (k + 1) i Hn Hc).
      * lia.
      * intros j b' Hj Hj'. apply (Hbefore (S j) b'); [lia | exact Hj'].
Qed.

Lemma scan_branches_unmarked items k :
  existsb is_current items = false ->
  scan_branches items k = k + length items.
Proof.
  revert k. induction items as [|b rest IH]; intros k H; simpl in *.
  - lia.
  - apply orb_false_elim in H as [Hb Hr]. unfold is_current in Hb. rewrite Hb.
    rewrite (IH _ Hr). lia.
Qed.

Lemma scan_branches_marked_in_range items k :
  existsb is_current items = true ->
  exists branch,
    nth_error items (scan_branches items k - k) = Some branch
    /\ is_current branch = true
    /\ k <= scan_branches items k.
Proof.
  revert k. induction items as [|b rest IH]; intros k H; simpl in *.
  - discriminate.
  - unfold is_current at 1 in H. destruct (PyStr.startswith "*" b) eqn:Hb.
    + exists b. rewrite Nat.sub_diag. auto.
    + simpl in H. destruct (IH (k + 1) H) as (br & Hn & Hc & Hk).
      exists br. split; [|split; [exact Hc | lia]].
      replace (scan_branches rest (k + 1) - k)
        with (S (scan_branches rest (k + 1) - (k + 1))) by lia.
      exact Hn.
Qed.

(** After a successful branches query the panel holds the lines of the
    answer and the selection the loop computed. *)
Lemma get_repo_branches_selects run s out err :
  run (events s) git_get_branches = (out, err) ->
  (0 <= err)%Z ->
  branch_menu (exec (get_repo_branches run) s)
  = mkMenu (PyStr.splitlines out) (scan_branches (PyStr.splitlines out) 0).
Proof.
  intros E L. unfold exec. rewrite (get_repo_branches_eq run s out err E).
  apply Z.ltb_ge in L. now rewrite L.
Qed.

(** The marked half of C1 in general: after a successful branches query the
    selection is the index of the first entry that bears the marker, when
    there is one. *)
Lemma get_repo_branches_selects_first_marked run s out err i branch :
  run (events s) git_get_branches = (out, err) ->
  (0 <= err)%Z ->
  nth_error (PyStr.splitlines out) i = Some branch ->
  is_current branch = true ->
  (forall j b, j < i -> nth_error (PyStr.splitlines out) j = Some b -> is_current b = false) ->
  selected_item (branch_menu (exec (get_repo_branches run) s)) = i
  /\ Menu.get (branch_menu (exec (get_repo_branches run) s)) = Ok (Some branch).
Proof.
  intros E L N C F. rewrite (get_repo_branches_selects run s out err E L).
  rewrite (scan_branches_first_marked _ 0 i branch N C F). simpl. split; [reflexivity|].
  unfold Menu.get. simpl. destruct (PyStr.splitlines out); [destruct i; discriminate|].
  now rewrite N.
Qed.

(** The other half: with entries but no marker, the selection is the number
    of entries, which is not an index of the panel. *)
Lemma get_repo_branches_unmarked run s out err :
  run (events s) git_get_branches = (out, err) ->
  (0 <= err)%Z ->
  existsb is_current (PyStr.splitlines out) = false ->
  selected_item (branch_menu (exec (get_repo_branches run) s))
  = length (view_items (branch_menu (exec (get_repo_branches run) s))).
Proof.
  intros E L U. rewrite (get_repo_branches_selects run s out err E L). simpl.
  now rewrite (scan_branches_unmarked _ 0 U).
Qed.

(** The two examples of the specification: the marked entry is selected. *)
Lemma get_repo_branches_on_main_and_on_dev :
  selected_item (branch_menu (exec (get_repo_branches runner_on_main) fresh_state)) = 0
  /\ Menu.get (branch_menu (exec (get_repo_branches runner_on_main) fresh_state))
     = Ok (Some "* main")
  /\ selected_item (branch_menu (exec (get_repo_branches runner_on_dev) fresh_state)) = 1
  /\ Menu.get (branch_menu (exec (get_repo_branches runner_on_dev) fresh_state))
     = Ok (Some "* dev").
Proof.
  split; [vm_compute; reflexivity|]. split; [vm_compute; reflexivity|].
  split; vm_compute; reflexivity.
Qed.

(** C1, where the code departs from it: for a branch list of two entries
    none of which bears the marker, the selection after the refresh of the
    branch panel is 2, one past the last entry, and not the default 0; reading
    the selected branch then raises, and so does the whole refresh. *)
Theorem get_repo_branches_unmarked_selects_past_end :
  view_items (branch_menu (exec (get_repo_branches runner_unborn) fresh_state))
    = ["  main"; "  dev"]
  /\ selected_item (branch_menu (exec (get_repo_branches runner_unborn) fresh_state)) = 2
  /\ Menu.get (branch_menu (exec (get_repo_branches runner_unborn) fresh_state))
     = Raise IndexError
  /\ outcome (refresh_git_status runner_unborn) fresh_state = Raise IndexError.
Proof.
  split; [vm_compute; reflexivity|]. split; [vm_compute; reflexivity|].
  split; vm_compute; reflexivity.
Qed.

(** ** What a refresh adds to the trace *)

Lemma refresh_extends run : extends refresh_event (refresh_git_status run).
Proof.
  unfold refresh_git_status, get_repo_branches, get_repo_remotes,
    get_repo_status_short, get_recent_commits, show_error_popup, subscript_from.
  extends_tac.
Qed.

Lemma refresh_quiet run : extends quiet_event (refresh_git_status run).
Proof.
  unfold refresh_git_status, get_repo_branches, get_repo_remotes,
    get_repo_status_short, get_recent_commits, show_error_popup, subscript_from.
  extends_tac.
Qed.

Lemma refresh_adds run s :
  exists tail rest,
    events (exec (refresh_git_status run) s) = (events s ++ tail)%list
    /\ calls tail = (refresh_queries ++ rest)%list
    /\ (rest = [] \/ exists b, rest = [git_get_recent_commits b])
    /\ Forall quiet_event tail.
Proof.
  destruct (refresh_quiet run s) as (tail & E & Q).
  destruct (refresh_git_status_trace run s)
    as (ob & eb & orr & er & os & es & tl & _ & T & _ & _ & _ & s3 & _ & _ & _ & St).
  cbv zeta in T. rewrite (added_app _ _ _ E) in T.
  exists tail, (calls tl). split; [exact E|]. split; [|split; [|exact Q]].
  - rewrite T, !calls_app, !calls_query_trace. reflexivity.
  - unfold commits_step in St. destruct (Menu.get (branch_menu s3)) as [[b|]|e].
    + destruct St as (oc & ec & _ & -> & _). right.
      exists (PyStr.slice_from 2 b). apply calls_query_trace.
    + destruct St as (-> & _). now left.
    + destruct St as (-> & _). now left.
Qed.


(** ** Add / revert *)

(** The entries of the specification's examples: modified-unstaged and
    untracked entries are staged, a staged entry is unstaged. *)
Lemma stage_or_unstage_examples :
  stage_or_unstage " M file.txt" = git_add_file "file.txt"
  /\ stage_or_unstage "?? new.txt" = git_add_file "new.txt"
  /\ stage_or_unstage "M  file.txt" = git_reset_file "file.txt".
Proof. repeat split. Qed.

(** C3, as amended: the add/revert action sends the stage command for the
    path of the selected entry when the entry starts with a space or with
    '?', and the unstage/reset command for that path otherwise.  When the
    status code is not negative, zero or a positive failure code alike, a
    full refresh follows and no popup is shown for the command; when it is
    negative, an error popup is shown and there is no refresh. *)
Theorem add_revert_file_refreshes_unless_negative
    (run : Runner) (s : State) (filename out : string) (err : Z) :
  Menu.get (add_files_menu s) = Ok (Some filename) ->
  run (events s) (stage_or_unstage filename) = (out, err) ->
  add_revert_file run s
    = (if Z.ltb err 0
       then (Ok tt, log_event (ErrorPopup ("Cannot add/revert file " ++ filename) out)
                      (log_event (Call (stage_or_unstage filename) out err) s))
       else refresh_git_status run
              (log_event (Call (stage_or_unstage filename) out err) s))
  /\ exists rest,
       calls (added s (exec (add_revert_file run) s))
       = stage_or_unstage filename
           :: (if Z.ltb err 0 then [] else refresh_queries ++ rest)%list.
Proof.
  intros G E.
  assert (EQ : add_revert_file run s
    = (if Z.ltb err 0
       then (Ok tt, log_event (ErrorPopup ("Cannot add/revert file " ++ filename) out)
                      (log_event (Call (stage_or_unstage filename) out err) s))
       else refresh_git_status run
              (log_event (Call (stage_or_unstage filename) out err) s))).
  { unfold add_revert_file, bind, menu_get. rewrite G. cbv beta iota.
    unfold stage_or_unstage in *.
    destruct (PyStr.startswith " " filename || PyStr.startswith "?" filename);
      unfold call; rewrite E; simpl fst; simpl snd;
      destruct (Z.ltb err 0); reflexivity. }
  split; [exact EQ|].
  unfold exec. rewrite EQ. destruct (Z.ltb err 0).
  - exists []. simpl snd. erewrite added_app; [|simpl; rewrite <- app_assoc; reflexivity].
    reflexivity.
  - destruct (refresh_adds run (log_event (Call (stage_or_unstage filename) out err) s))
      as (tail & rest & Ev & Ca & _ & _).
    exists rest. unfold exec in Ev. erewrite added_app;
      [|rewrite Ev; simpl; rewrite <- app_assoc; reflexivity].
    simpl. rewrite Ca. reflexivity.
Qed.

Lemma add_revert_file_refreshes_unless_negative_witness :
  Menu.get (add_files_menu loaded_state) = Ok (Some " M file.txt")
  /\ runner_add_positive (events loaded_state) (stage_or_unstage " M file.txt")
     = ("fatal: pathspec did not match any files", 128%Z)
  /\ add_revert_file runner_add_positive loaded_state
     = (if Z.ltb 128 0
        then (Ok tt,
              log_event (ErrorPopup ("Cannot add/revert file " ++ " M file.txt")
                           "fatal: pathspec did not match any files")
                (log_event (Call (stage_or_unstage " M file.txt")
                              "fatal: pathspec did not match any files" 128)
                   loaded_state))
        else refresh_git_status runner_add_positive
               (log_event (Call (stage_or_unstage " M file.txt")
                             "fatal: pathspec did not match any files" 128)
                  loaded_state)).
Proof.
  assert (G : Menu.get (add_files_menu loaded_state) = Ok (Some " M file.txt"))
    by (vm_compute; reflexivity).
  assert (E : runner_add_positive (events loaded_state) (stage_or_unstage " M file.txt")
              = ("fatal: pathspec did not match any files", 128%Z))
    by (vm_compute; reflexivity).
  split; [exact G|]. split; [exact E|].
  exact (proj1 (add_revert_file_refreshes_unless_negative
                  runner_add_positive loaded_state " M file.txt"
                  "fatal: pathspec did not match any files" 128%Z G E)).
Defined.

(** C3, as stated, fails: with the modified, unstaged entry selected and the
    stage command answering -1, the action adds the call and an error popup
    and nothing else; none of the queries of a refresh is sent. *)
Lemma add_revert_file_negative_status_no_refresh :
  Menu.get (add_files_menu loaded_state) = Ok (Some " M file.txt")
  /\ runner_add_negative (events loaded_state) (stage_or_unstage " M file.txt")
     = ("error: unable to stage", (-1)%Z)
  /\ added loaded_state (exec (add_revert_file runner_add_negative) loaded_state)
     = [Call (git_add_file "file.txt") "error: unable to stage" (-1);
        ErrorPopup "Cannot add/revert file  M file.txt" "error: unable to stage"]
  /\ ~ In git_get_branches
         (calls (added loaded_state (exec (add_revert_file runner_add_negative) loaded_state)))
  /\ add_files_menu (exec (add_revert_file runner_add_negative) loaded_state)
     = add_files_menu loaded_state.
Proof.
  split; [vm_compute; reflexivity|]. split; [vm_compute; reflexivity|].
  split; [vm_compute; reflexivity|]. split; [|vm_compute; reflexivity].
  intros H. vm_compute in H. destruct H as [H|[]]. discriminate.
Qed.

(** ** Add remote *)

Lemma refresh_preserves_inputs run :
  preserves (fun s => (commit_message_box s, new_branch_textbox s, utility_var s))
    (refresh_git_status run).
Proof.
  unfold refresh_git_status, get_repo_branches, get_repo_remotes,
    get_repo_status_short, get_recent_commits, show_error_popup, subscript_from, call.
  preserves_tac.
Qed.



(** ** Create branch *)

(** C7: with an empty name the create-branch action shows the validation
    error and calls no command.  With any other name it calls the
    create-branch command with exactly that name, once; whatever the status
    code, it then leaves the focus, empties the name input and runs the
    refresh itself (an error popup comes first when the status code is not
    0): its result is the result of [refresh_git_status] on the state with
    the call, the popup, the focus left and the input emptied, and the name
    input is empty at the end. *)
Theorem create_new_branch_validates_clears_and_refreshes (run : Runner) (s : State) :
  let name := new_branch_textbox s in
  let s' := exec (create_new_branch run) s in
  let c := git_create_new_branch name in
  let out := fst (run (events s) c) in
  let err := snd (run (events s) c) in
  if String.eqb name ""
  then create_new_branch run s
       = (Ok tt, log_event (ErrorPopup "ERROR - Illegal branchname"
                              "Please enter a valid branchname.") s)
       /\ calls (added s s') = []
  else create_new_branch run s
       = refresh_git_status run (after_create_branch name out err s)
       /\ new_branch_textbox (after_create_branch name out err s) = ""
       /\ new_branch_textbox s' = ""
       /\ exists tail rest,
            added s s'
            = (Call c out err
               :: (if Z.eqb err 0 then [] else [ErrorPopup "Failed to create branch" out])
               ++ LoseFocus :: tail)%list
            /\ calls tail = (refresh_queries ++ rest)%list
            /\ calls (added s s') = c :: (refresh_queries ++ rest)%list
            /\ Forall refresh_event tail.
Proof.
  cbv zeta. destruct (new_branch_textbox s) as [|a name'] eqn:N.
  - simpl String.eqb. unfold exec, create_new_branch, bind, gets. rewrite N. simpl.
    split; [reflexivity|]. unfold exec. simpl.
    erewrite added_app; [|reflexivity]. reflexivity.
  - simpl String.eqb.
    destruct (run (events s) (git_create_new_branch (String a name'))) as [out err] eqn:E.
    simpl fst; simpl snd.
    set (popups := if Z.eqb err 0 then [] else [ErrorPopup "Failed to create branch" out]).
    set (s0 := after_create_branch (String a name') out err s).
    assert (EQ : create_new_branch run s = refresh_git_status run s0).
    { unfold create_new_branch, bind, gets. rewrite N. cbv beta iota.
      change (Nat.eqb (String.length (String a name')) 0) with false. cbv iota.
      unfold call. rewrite E. simpl fst; simpl snd.
      subst s0. unfold after_create_branch, manager_show_error_popup, show_error_popup,
        lose_focus, modify, ret.
      destruct (Z.eqb err 0); reflexivity. }
    assert (E0 : events s0
                 = (events s
                    ++ Call (git_create_new_branch (String a name')) out err
                       :: popups ++ [LoseFocus])%list).
    { subst s0 popups. unfold after_create_branch.
      destruct (Z.eqb err 0); simpl; rewrite <- !app_assoc; reflexivity. }
    assert (N0 : new_branch_textbox s0 = "") by reflexivity.
    split; [exact EQ|]. split; [exact N0|].
    clearbody s0.
    unfold exec. rewrite EQ.
    destruct (refresh_extends run s0) as (tail & Ev & Fa).
    destruct (refresh_adds run s0) as (tail' & rest & Ev' & Ca & _ & _).
    assert (tail' = tail) as -> by (rewrite Ev in Ev'; now apply app_inv_head in Ev').
    split.
    + change (new_branch_textbox (exec (refresh_git_status run) s0) = "").
      pose proof (refresh_preserves_inputs run s0) as P. simpl in P.
      injection P as _ P _. now rewrite P.
    + exists tail, rest. unfold exec in Ev.
      assert (A : added s (snd (refresh_git_status run s0))
                  = (Call (git_create_new_branch (String a name')) out err
                     :: popups ++ LoseFocus :: tail)%list).
      { apply added_app. rewrite Ev, E0.
        rewrite <- !app_assoc. simpl. rewrite <- !app_assoc. reflexivity. }
      split; [exact A|]. split; [exact Ca|]. split; [|exact Fa].
      rewrite A. subst popups. destruct (Z.eqb err 0); simpl; now rewrite Ca.
Qed.

(** ** The external editor *)

Lemma length_append (a b : string) :
  String.length (a ++ b) = String.length a + String.length b.
Proof. induction a; simpl; auto. Qed.

(** Joining a non-empty relative name to a directory gives a path other
    than the directory. *)
Lemma path_join_differs (dir file : string) :
  file <> "" -> PyStr.starts_with_sep file = false ->
  PyStr.path_join dir file <> dir.
Proof.
  intros Hne Hrel. unfold PyStr.path_join. rewrite Hrel.
  assert (L : 0 < String.length file) by (destruct file; [contradiction | simpl; lia]).
  destruct dir as [|c dir']; [exact Hne|].
  destruct (PyStr.ends_with_sep (String c dir')); intros H;
    apply (f_equal String.length) in H; rewrite !length_append in H; simpl in H; lia.
Qed.

Lemma open_editor_eq run s ed file out err :
  default_editor s = Some ed ->
  run (events s) (open_default_editor ed (cwd s)) = (out, err) ->
  open_editor run file s
  = (Ok tt,
     log_event (if Z.eqb err 0
                then MessagePopup ("Opened " ++ cwd s)
                       ("Opened " ++ ed ++ " editor in external window")
                else ErrorPopup "Failed to open editor." out)
       (log_event (Call (open_default_editor ed (cwd s)) out err) s)).
Proof.
  intros D E. unfold open_editor, bind, gets. rewrite D. cbv beta iota.
  destruct file; cbv beta iota zeta; unfold ret at 1; cbv beta iota;
    unfold call; rewrite E; simpl fst; simpl snd; destruct (Z.eqb err 0); reflexivity.
Qed.

(** C9: with an editor command configured, the editor launch receives the
    current working directory whether or not a file name is given: the
    action with a file name does exactly what the action without one does,
    its only call is the launch on the working directory, and for a
    non-empty relative file name the joined path, which is never passed on,
    differs from that directory.  The same holds when the file name comes
    from the selected changed-files entry. *)
Theorem open_editor_launches_on_cwd_not_file
    (run : Runner) (s : State) (ed file : string) :
  default_editor s = Some ed ->
  file <> "" ->
  PyStr.starts_with_sep file = false ->
  open_editor run (Some file) s = open_editor run None s
  /\ calls (added s (exec (open_editor run (Some file)) s))
     = [open_default_editor ed (cwd s)]
  /\ PyStr.path_join (cwd s) file <> cwd s
  /\ (forall entry,
        Menu.get (add_files_menu s) = Ok (Some entry) ->
        calls (added s (exec (open_editor_file run) s))
        = [open_default_editor ed (cwd s)]).
Proof.
  intros D Hne Hrel.
  destruct (run (events s) (open_default_editor ed (cwd s))) as [out err] eqn:E.
  assert (C : forall f, calls (added s (exec (open_editor run f) s))
                        = [open_default_editor ed (cwd s)]).
  { intros f. unfold exec. rewrite (open_editor_eq run s ed f out err D E). simpl snd.
    erewrite added_app; [|simpl; rewrite <- app_assoc; reflexivity].
    destruct (Z.eqb err 0); reflexivity. }
  split; [now rewrite !(open_editor_eq run s ed _ out err D E)|].
  split; [apply C|]. split; [now apply path_join_differs|].
  intros entry G. unfold exec, open_editor_file, bind, menu_get. rewrite G.
  cbv beta iota delta [subscript_from ret]. apply C.
Qed.

Lemma open_editor_launches_on_cwd_not_file_witness :
  default_editor editor_state = Some "code"
  /\ "file.txt" <> ""
  /\ PyStr.starts_with_sep "file.txt" = false
  /\ Menu.get (add_files_menu editor_state) = Ok (Some " M file.txt")
  /\ calls (added editor_state (exec (open_editor runner_ok (Some "file.txt")) editor_state))
     = [open_default_editor "code" (cwd editor_state)]
  /\ PyStr.path_join (cwd editor_state) "file.txt" <> cwd editor_state
  /\ calls (added editor_state (exec (open_editor_file runner_ok) editor_state))
     = [open_default_editor "code" (cwd editor_state)].
Proof.
  assert (D : default_editor editor_state = Some "code") by reflexivity.
  assert (N : "file.txt" <> "") by discriminate.
  assert (R : PyStr.starts_with_sep "file.txt" = false) by reflexivity.
  assert (G : Menu.get (add_files_menu editor_state) = Ok (Some " M file.txt"))
    by (vm_compute; reflexivity).
  destruct (open_editor_launches_on_cwd_not_file runner_ok editor_state
              "code" "file.txt" D N R) as (_ & C & J & F).
  split; [exact D|]. split; [exact N|]. split; [exact R|]. split; [exact G|].
  split; [exact C|]. split; [exact J | exact (F " M file.txt" G)].
Defined.

(** ** The settings screen *)

(** C10: [toggle_editor_type] turns the editor type 'Internal' into
    'External' and every other value into 'Internal', so the result is always
    one of the two; the configured editor command is left alone; and from
    either of the two values, toggling twice gives the editor type back. *)
Theorem toggle_editor_type_swaps (s : Settings.Screen) :
  Settings.editor_type (Settings.toggle_editor_type s)
    = (if String.eqb (Settings.editor_type s) "Internal" then "External" else "Internal")
  /\ (Settings.editor_type (Settings.toggle_editor_type s) = "Internal"
      \/ Settings.editor_type (Settings.toggle_editor_type s) = "External")
  /\ Settings.default_editor (Settings.toggle_editor_type s) = Settings.default_editor s
  /\ (Settings.editor_type s = "Internal" \/ Settings.editor_type s = "External" ->
      Settings.editor_type (Settings.toggle_editor_type (Settings.toggle_editor_type s))
      = Settings.editor_type s).
Proof.
  assert (T : forall s0, Settings.editor_type (Settings.toggle_editor_type s0)
    = (if String.eqb (Settings.editor_type s0) "Internal" then "External" else "Internal")).
  { intros s0. unfold Settings.toggle_editor_type.
    destruct (String.eqb (Settings.editor_type s0) "Internal"); reflexivity. }
  split; [apply T|]. split; [|split].
  - rewrite T. destruct (String.eqb _ _); auto.
  - unfold Settings.toggle_editor_type.
    destruct (String.eqb (Settings.editor_type s) "Internal"); reflexivity.
  - intros [H|H]; rewrite !T, H; reflexivity.
Qed.

Lemma toggle_editor_type_swaps_witness :
  (Settings.editor_type settings_internal = "Internal"
   \/ Settings.editor_type settings_internal = "External")
  /\ Settings.editor_type (Settings.toggle_editor_type settings_internal) = "External"
  /\ Settings.editor_type
       (Settings.toggle_editor_type (Settings.toggle_editor_type settings_internal))
     = Settings.editor_type settings_internal.
Proof.
  assert (H : Settings.editor_type settings_internal = "Internal"
              \/ Settings.editor_type settings_internal = "External")
    by (left; reflexivity).
  destruct (toggle_editor_type_swaps settings_internal) as (T & _ & _ & W).
  split; [exact H|]. split; [exact T | exact (W H)].
Defined.

(** ** Commit *)

Lemma valid_get m : Menu.valid m -> exists v, Menu.get m = Ok v.
Proof.
  unfold Menu.valid, Menu.get. intros [L|[E _]].
  - destruct (view_items m) as [|x l] eqn:V; [now exists None|].
    destruct (nth_error (x :: l) (selected_item m)) eqn:N; [eauto|].
    apply nth_error_None in N. lia.
  - rewrite E. now exists None.
Qed.

Section Returns.

Variable run : Runner.
Hypothesis marked : marks_current run.

(** With branch lists that bear the marker, a refresh keeps the branch
    panel valid, and so it returns. *)
Lemma refresh_returns s :
  Menu.valid (branch_menu s) ->
  outcome (refresh_git_status run) s = Ok tt
  /\ Menu.valid (branch_menu (exec (refresh_git_status run) s)).
Proof.
  intros V.
  destruct (refresh_git_status_trace run s)
    as (ob & eb & orr & er & os & es & tl & Eb & _ & B & _ & _ & s3 & B3 & _ & _ & St).
  cbv zeta in B.
  assert (V' : Menu.valid (branch_menu (exec (refresh_git_status run) s))).
  { rewrite B. destruct (Z.ltb_spec eb 0) as [L|L]; [exact V|].
    destruct (marked _ _ _ Eb L) as [E|E].
    - rewrite E. right. auto.
    - destruct (scan_branches_marked_in_range _ 0 E) as (br & N & _ & _).
      left. simpl. rewrite Nat.sub_0_r in N.
      apply nth_error_Some. now rewrite N. }
  split; [|exact V'].
  destruct (valid_get _ V') as (v & G).
  unfold commits_step in St. rewrite B3, G in St.
  destruct v; [destruct St as (? & ? & _ & _ & _ & St) | destruct St as (_ & _ & St)];
    exact St.
Qed.

Lemma show_log_returns s :
  Menu.valid (branch_menu s) -> outcome (show_log run) s = Ok tt.
Proof.
  intros V. destruct (valid_get _ V) as (v & G).
  unfold outcome, show_log, bind, menu_get. rewrite G. destruct v; [|reflexivity].
  rewrite G. cbv beta iota delta [subscript_from ret]. unfold call. simpl fst; simpl snd.
  destruct (run _ _) as [out err]. destruct (Z.ltb err 0); reflexivity.
Qed.

End Returns.

(** ** The commit-message input after a commit *)

(** Where the message input is emptied: whenever a commit attempt returns,
    the commit-message input is empty.  It returns for every non-zero status
    code; and it returns for the status code 0 when the branch panel
    satisfies the panel invariant and the branch lists the command runner
    answers bear the current marker, which is what the refresh on the
    success path needs to read the selected branch. *)
Lemma commit_clears_message (run : Runner) (s : State) :
  let c := git_commit_changes (commit_message_box s) in
  let out := fst (run (events s) c) in
  let err := snd (run (events s) c) in
  (forall s', commit run s = (Ok tt, s') -> commit_message_box s' = "")
  /\ (err <> 0%Z ->
      commit run s
      = (Ok tt, set_commit_message_box ""
                  (log_event (ErrorPopup "Commit failed!" out)
                     (log_event (Call c out err) s))))
  /\ (marks_current run -> Menu.valid (branch_menu s) ->
      exists s', commit run s = (Ok tt, s') /\ commit_message_box s' = "").
Proof.
  cbv zeta.
  destruct (run (events s) (git_commit_changes (commit_message_box s)))
    as [out err] eqn:E. simpl fst; simpl snd.
  assert (Hfail : err <> 0%Z ->
      commit run s
      = (Ok tt, set_commit_message_box ""
                  (log_event (ErrorPopup "Commit failed!" out)
                     (log_event (Call (git_commit_changes (commit_message_box s)) out err) s)))).
  { intros N. apply Z.eqb_neq in N.
    unfold commit, bind, gets, call. rewrite E. simpl fst; simpl snd. rewrite N.
    reflexivity. }
  assert (Hret : forall s', commit run s = (Ok tt, s') -> commit_message_box s' = "").
  { intros s'. unfold commit, bind at 1 2 3, gets, call. rewrite E. simpl fst; simpl snd.
    match goal with |- context [?m (log_event ?e s)] =>
      destruct (m (log_event e s)) as [[[]|x] s1] end; [|discriminate].
    unfold modify. intros H. injection H as <-. reflexivity. }
  split; [exact Hret|]. split; [exact Hfail|].
  intros Mk V.
  destruct (Z.eq_dec err 0) as [->|N].
  - set (s1 := log_event (MessagePopup "Success" ("Committed: " ++ commit_message_box s))
                 (log_event (Call (git_commit_changes (commit_message_box s)) out 0) s)).
    assert (V1 : Menu.valid (branch_menu s1)) by exact V.
    destruct (refresh_returns run Mk s1 V1) as [O2 V2].
    pose proof (show_log_returns run _ V2) as O3.
    unfold outcome, exec in *.
    assert (EQ : commit run s
                 = (Ok tt, set_commit_message_box ""
                             (snd (show_log run (snd (refresh_git_status run s1)))))).
    { unfold commit, bind at 1 2 3, gets, call. rewrite E. simpl fst; simpl snd.
      change (negb (Z.eqb 0 0)) with false. cbv iota.
      unfold bind, show_message_popup, modify. fold s1.
      destruct (refresh_git_status run s1) as [o2 s2]. simpl in O2, O3 |- *. subst o2.
      destruct (show_log run s2) as [o3 s3]. simpl in O3 |- *. subst o3. reflexivity. }
    eexists. split; [exact EQ | reflexivity].
  - eexists. split; [exact (Hfail N) | reflexivity].
Qed.

Lemma commit_clears_message_witness :
  marks_current runner_ok
  /\ Menu.valid (branch_menu message_typed_state)
  /\ snd (runner_commit_refused (events message_typed_state)
            (git_commit_changes (commit_message_box message_typed_state))) <> 0%Z
  /\ commit_message_box message_typed_state = "Fix the parser"
  /\ commit_message_box (exec (commit runner_ok) message_typed_state) = ""
  /\ commit_message_box (exec (commit runner_commit_refused) message_typed_state) = "".
Proof.
  assert (Mk : marks_current runner_ok).
  { intros evs out err E _. injection E as <- _. right. vm_compute. reflexivity. }
  assert (V : Menu.valid (branch_menu message_typed_state)) by (left; vm_compute; lia).
  assert (N : snd (runner_commit_refused (events message_typed_state)
                     (git_commit_changes (commit_message_box message_typed_state))) <> 0%Z)
    by (vm_compute; discriminate).
  destruct (commit_clears_message runner_ok message_typed_state) as (_ & _ & H).
  destruct (H Mk V) as (s1 & E1 & C1).
  destruct (commit_clears_message runner_commit_refused message_typed_state) as (R & F & _).
  split; [exact Mk|]. split; [exact V|]. split; [exact N|].
  split; [reflexivity|]. split.
  - unfold exec. rewrite E1. exact C1.
  - unfold exec. apply (R _ (F N)).
Defined.

(** Where it is not: when the commit command answers status 0 and the
    refresh that follows raises, the commit raises the same exception and the
    message input keeps the message, since the line that empties it is never
    reached. *)
Lemma commit_refresh_raise_keeps_message (run : Runner) (s : State) (out : string)
    (e : PyExn) :
  run (events s) (git_commit_changes (commit_message_box s)) = (out, 0%Z) ->
  outcome (refresh_git_status run) (after_commit out s) = Raise e ->
  outcome (commit run) s = Raise e
  /\ commit_message_box (exec (commit run) s) = commit_message_box s.
Proof.
  intros E R.
  pose proof (refresh_preserves_inputs run (after_commit out s)) as P.
  unfold outcome, exec in *.
  assert (EQ : commit run s
               = (Raise e, snd (refresh_git_status run (after_commit out s)))).
  { unfold commit, bind at 1 2 3, gets, call. rewrite E. simpl fst; simpl snd.
    change (negb (Z.eqb 0 0)) with false. cbv iota.
    unfold bind, show_message_popup, modify.
    change (log_event (MessagePopup "Success" ("Committed: " ++ commit_message_box s))
              (log_event (Call (git_commit_changes (commit_message_box s)) out 0) s))
      with (after_commit out s).
    destruct (refresh_git_status run (after_commit out s)) as [o2 s2].
    simpl in R |- *. subst o2. reflexivity. }
  rewrite EQ. simpl fst; simpl snd. split; [reflexivity|].
  simpl in P. injection P as P _ _. exact P.
Qed.

(** C6, where the code departs from it: the message "Fix the parser" is
    typed in on a screen whose branch panel satisfies the panel invariant;
    the commit command accepts it with status 0, and the branch list the
    refresh then reads has two entries, none of which bears the marker.
    The commit sends the command and shows the success popup; the refresh
    raises IndexError before the line that empties the message input is
    reached, so the commit attempt ends with that exception and the input
    still holds "Fix the parser". *)
Theorem commit_accepted_on_unmarked_branches_keeps_message :
  commit_message_box message_typed_state = "Fix the parser"
  /\ Menu.valid (branch_menu message_typed_state)
  /\ runner_unborn (events message_typed_state) (git_commit_changes "Fix the parser")
     = ("done", 0%Z)
  /\ runner_unborn [] git_get_branches = ("  main" ++ LF ++ "  dev", 0%Z)
  /\ firstn 2 (added message_typed_state
                 (exec (commit runner_unborn) message_typed_state))
     = [Call (git_commit_changes "Fix the parser") "done" 0;
        MessagePopup "Success" "Committed: Fix the parser"]
  /\ outcome (commit runner_unborn) message_typed_state = Raise IndexError
  /\ commit_message_box (exec (commit runner_unborn) message_typed_state)
     = "Fix the parser".
Proof.
  split; [reflexivity|]. split; [left; vm_compute; lia|].
  split; [reflexivity|]. split; [reflexivity|].
  split; [vm_compute; reflexivity|]. split; vm_compute; reflexivity.
Qed.

(** ** Push and pull behind the credential gate *)

Section Credentials.

Variable run : Runner.




End Credentials.






(** * Further properties of the screen's actions *)

(** What a refresh appends: its three queries first, then at most the
    commits query, and besides queries only error popups. *)
Lemma refresh_tail run s :
  exists tail rest,
    events (exec (refresh_git_status run) s) = (events s ++ tail)%list
    /\ calls tail = (refresh_queries ++ rest)%list
    /\ Forall refresh_event tail.
Proof.
  destruct (refresh_extends run s) as (tail & Ev & Fa).
  destruct (refresh_adds run s) as (tail' & rest & Ev' & Ca & _ & _).
  assert (tail' = tail) as -> by (rewrite Ev in Ev'; now apply app_inv_head in Ev').
  now exists tail, rest.
Qed.

(** ** Checkout *)

(** X1: checkout does nothing at all on an empty branch panel.  With a
    branch selected it calls the checkout command for the entry without its
    two-character prefix, shows one popup (success for status 0, failure for
    any other status) and then always runs the refresh itself: its result is
    the result of [refresh_git_status] on the state with the call and the
    popup recorded, and no further checkout happens in it. *)
Theorem checkout_branch_guarded_and_always_refreshes (run : Runner) (s : State) :
  match Menu.get (branch_menu s) with
  | Ok None => checkout_branch run s = (Ok tt, s)
  | Raise e => checkout_branch run s = (Raise e, s)
  | Ok (Some b) =>
      let branch := PyStr.slice_from 2 b in
      let c := git_checkout_branch branch in
      let out := fst (run (events s) c) in
      let err := snd (run (events s) c) in
      checkout_branch run s = refresh_git_status run (after_checkout branch out err s)
      /\ exists tail rest,
           added s (exec (checkout_branch run) s)
           = Call c out err :: checkout_popup branch out err :: tail
           /\ calls tail = (refresh_queries ++ rest)%list
           /\ Forall refresh_event tail
  end.
Proof.
  destruct (Menu.get (branch_menu s)) as [[b|]|e] eqn:G.
  - cbv zeta.
    destruct (run (events s) (git_checkout_branch (PyStr.slice_from 2 b)))
      as [out err] eqn:E. simpl fst; simpl snd.
    set (s0 := after_checkout (PyStr.slice_from 2 b) out err s).
    assert (EQ : checkout_branch run s = refresh_git_status run s0).
    { unfold checkout_branch, bind, menu_get. rewrite G. cbv beta iota zeta.
      unfold call. rewrite E. simpl fst; simpl snd. subst s0.
      unfold after_checkout, checkout_popup.
      destruct (Z.eqb err 0); reflexivity. }
    assert (E0 : events s0
                 = (events s ++ [Call (git_checkout_branch (PyStr.slice_from 2 b)) out err;
                                 checkout_popup (PyStr.slice_from 2 b) out err])%list).
    { subst s0. unfold after_checkout. simpl. now rewrite <- app_assoc. }
    split; [exact EQ|].
    clearbody s0.
    destruct (refresh_tail run s0) as (tail & rest & Ev & Ca & Fa).
    exists tail, rest. split; [|auto].
    unfold exec in *. rewrite EQ. apply added_app. rewrite Ev, E0, <- app_assoc.
    reflexivity.
  - unfold checkout_branch, bind, menu_get. now rewrite G.
  - unfold checkout_branch, bind, menu_get. now rewrite G.
Qed.

(** ** Stage all *)

(** X2: stage-all refreshes only for status 0.  For every other status,
    negative or positive, it shows the error popup and leaves every widget as
    it was; none of the queries of a refresh is sent. *)
Theorem add_all_changes_refreshes_only_on_zero (run : Runner) (s : State) :
  let out := fst (run (events s) git_add_all) in
  let err := snd (run (events s) git_add_all) in
  if Z.eqb err 0
  then exists tail rest,
         added s (exec (add_all_changes run) s) = Call git_add_all out err :: tail
         /\ calls tail = (refresh_queries ++ rest)%list
         /\ Forall refresh_event tail
  else add_all_changes run s
       = (Ok tt, log_event (ErrorPopup "Git Add Error" out)
                   (log_event (Call git_add_all out err) s)).
Proof.
  cbv zeta. destruct (run (events s) git_add_all) as [out err] eqn:E.
  simpl fst; simpl snd. destruct (Z.eqb err 0) eqn:Z0.
  - assert (EQ : add_all_changes run s
                 = refresh_git_status run (log_event (Call git_add_all out err) s)).
    { unfold add_all_changes, bind, call. rewrite E. simpl fst; simpl snd.
      now rewrite Z0. }
    destruct (refresh_tail run (log_event (Call git_add_all out err) s))
      as (tail & rest & Ev & Ca & Fa).
    exists tail, rest. split; [|auto].
    unfold exec in *. rewrite EQ. apply added_app. rewrite Ev. simpl.
    now rewrite <- app_assoc.
  - unfold add_all_changes, bind, call. rewrite E. simpl fst; simpl snd.
    now rewrite Z0.
Qed.

(** ** The external editor *)

(** X3: without a configured editor command the open-editor action only
    shows an error popup and launches nothing, whatever file it is given.
    With one it launches once and shows one popup, a failure popup for every
    non-zero status, and changes nothing but the trace. *)
Theorem open_editor_needs_editor_and_reports_launch
    (run : Runner) (s : State) (file : option string) :
  match default_editor s with
  | None =>
      open_editor run file s
      = (Ok tt, log_event (ErrorPopup "Error" "No default editor specified.") s)
  | Some ed =>
      let c := open_default_editor ed (cwd s) in
      let out := fst (run (events s) c) in
      let err := snd (run (events s) c) in
      open_editor run file s
      = (Ok tt, log_event (editor_popup ed (cwd s) out err)
                  (log_event (Call c out err) s))
  end.
Proof.
  destruct (default_editor s) as [ed|] eqn:D.
  - cbv zeta. destruct (run (events s) (open_default_editor ed (cwd s)))
      as [out err] eqn:E. simpl fst; simpl snd.
    rewrite (open_editor_eq run s ed file out err D E). unfold editor_popup.
    reflexivity.
  - unfold open_editor, bind, gets. now rewrite D.
Qed.

(** ** When a refresh raises *)

Lemma get_past_end l : l <> [] -> Menu.get (mkMenu l (length l)) = Raise IndexError.
Proof.
  intros N. unfold Menu.get. simpl. destruct l as [|x l]; [contradiction|].
  assert (H : nth_error (x :: l) (length (x :: l)) = None)
    by (apply nth_error_None; lia).
  now rewrite H.
Qed.

Lemma existsb_false_or_true (l : list string) :
  existsb is_current l = true \/ existsb is_current l = false.
Proof. destruct (existsb is_current l); auto. Qed.

(** The outcome of a refresh is decided by reading the branch panel it
    leaves. *)
Lemma refresh_outcome run s :
  outcome (refresh_git_status run) s
  = match Menu.get (branch_menu (exec (refresh_git_status run) s)) with
    | Raise e => Raise e
    | Ok _ => Ok tt
    end.
Proof.
  destruct (refresh_git_status_trace run s)
    as (ob & eb & orr & er & os & es & tl & _ & _ & _ & _ & _ & s3 & B3 & _ & _ & St).
  unfold commits_step in St. rewrite B3 in St.
  destruct (Menu.get (branch_menu (exec (refresh_git_status run) s))) as [[b|]|e].
  - now destruct St as (? & ? & _ & _ & _ & St).
  - now destruct St as (_ & _ & St).
  - now destruct St as (_ & _ & St).
Qed.

(** X10: on a valid branch panel a refresh raises exactly when the branches
    query succeeds with a list that has entries none of which bears the
    current marker; the exception is then IndexError, and in every other case
    the refresh returns. *)
Theorem refresh_raises_exactly_on_unmarked_branches (run : Runner) (s : State) :
  Menu.valid (branch_menu s) ->
  outcome (refresh_git_status run) s
  = (if unmarked_branches (fst (run (events s) git_get_branches))
                          (snd (run (events s) git_get_branches))
     then Raise IndexError else Ok tt).
Proof.
  intros V. rewrite refresh_outcome.
  destruct (refresh_git_status_trace run s)
    as (ob & eb & orr & er & os & es & tl & Eb & _ & B & _).
  cbv zeta in B. rewrite B, Eb. simpl fst; simpl snd. unfold unmarked_branches.
  destruct (Z.ltb_spec eb 0) as [L|L].
  - replace (Z.leb 0 eb) with false by (symmetry; apply Z.leb_gt; lia). simpl.
    destruct (valid_get _ V) as (v & ->). reflexivity.
  - replace (Z.leb 0 eb) with true by (symmetry; apply Z.leb_le; lia). simpl.
    destruct (PyStr.splitlines ob) as [|x l] eqn:S; [reflexivity|].
    change (Nat.eqb (length (x :: l)) 0) with false. simpl negb at 1. rewrite andb_true_l.
    destruct (existsb_false_or_true (x :: l)) as [M|M]; rewrite M; simpl negb; cbv iota.
    + destruct (scan_branches_marked_in_range _ 0 M) as (br & N & _ & _).
      rewrite Nat.sub_0_r in N. unfold Menu.get. cbn [view_items selected_item].
      now rewrite N.
    + rewrite (scan_branches_unmarked _ 0 M), Nat.add_0_l.
      now rewrite (get_past_end (x :: l)).
Qed.

Lemma refresh_raises_exactly_on_unmarked_branches_witness :
  Menu.valid (branch_menu fresh_state)
  /\ outcome (refresh_git_status runner_unborn) fresh_state = Raise IndexError
  /\ outcome (refresh_git_status runner_ok) fresh_state = Ok tt.
Proof.
  assert (V : Menu.valid (branch_menu fresh_state)) by (right; split; reflexivity).
  split; [exact V|]. split.
  - rewrite (refresh_raises_exactly_on_unmarked_branches runner_unborn fresh_state V).
    vm_compute. reflexivity.
  - rewrite (refresh_raises_exactly_on_unmarked_branches runner_ok fresh_state V).
    vm_compute. reflexivity.
Defined.

(** ** The commits panel follows the current branch *)

(** X13: when the branches query succeeds and [branch] is the first entry
    that bears the marker, the refresh asks the recent commits of that entry
    without its two-character prefix, whatever was selected before; the
    branch panel then has that entry selected and the refresh returns. *)
Theorem refresh_asks_commits_of_current_branch
    (run : Runner) (s : State) (out : string) (err : Z) (i : nat) (branch : string) :
  run (events s) git_get_branches = (out, err) ->
  (0 <= err)%Z ->
  nth_error (PyStr.splitlines out) i = Some branch ->
  is_current branch = true ->
  (forall j b, j < i -> nth_error (PyStr.splitlines out) j = Some b -> is_current b = false) ->
  calls (added s (exec (refresh_git_status run) s))
  = (refresh_queries ++ [git_get_recent_commits (PyStr.slice_from 2 branch)])%list
  /\ Menu.get (branch_menu (exec (refresh_git_status run) s)) = Ok (Some branch)
  /\ selected_item (branch_menu (exec (refresh_git_status run) s)) = i
  /\ outcome (refresh_git_status run) s = Ok tt.
Proof.
  intros E L N C F.
  destruct (refresh_git_status_trace run s)
    as (ob & eb & orr & er & os & es & tl & Eb & T & B & _ & _ & s3 & B3 & _ & _ & St).
  cbv zeta in T, B. rewrite E in Eb. injection Eb as <- <-.
  apply Z.ltb_ge in L. rewrite L in B.
  rewrite (scan_branches_first_marked _ 0 i branch N C F) in B. simpl plus in B.
  assert (G : Menu.get (branch_menu (exec (refresh_git_status run) s)) = Ok (Some branch)).
  { rewrite B. unfold Menu.get. simpl.
    destruct (PyStr.splitlines out); [destruct i; discriminate|]. now rewrite N. }
  unfold commits_step in St. rewrite B3, G in St.
  destruct St as (oc & ec & _ & -> & _ & O).
  split; [|split; [exact G|split; [now rewrite B|exact O]]].
  rewrite T, !calls_app, !calls_query_trace. reflexivity.
Qed.

Lemma refresh_asks_commits_of_current_branch_witness :
  runner_on_dev (events loaded_state) git_get_branches = ("  main" ++ LF ++ "* dev", 0%Z)
  /\ Menu.get (branch_menu loaded_state) = Ok (Some "* main")
  /\ calls (added loaded_state (exec (refresh_git_status runner_on_dev) loaded_state))
     = (refresh_queries
        ++ [git_get_recent_commits (PyStr.slice_from 2 "* dev")])%list
  /\ Menu.get (branch_menu (exec (refresh_git_status runner_on_dev) loaded_state))
     = Ok (Some "* dev").
Proof.
  assert (E : runner_on_dev (events loaded_state) git_get_branches
              = ("  main" ++ LF ++ "* dev", 0%Z)) by reflexivity.
  assert (L : (0 <= 0)%Z) by lia.
  assert (N : nth_error (PyStr.splitlines ("  main" ++ LF ++ "* dev")) 1 = Some "* dev")
    by reflexivity.
  assert (C : is_current "* dev" = true) by reflexivity.
  assert (F : forall j b, j < 1 ->
                nth_error (PyStr.splitlines ("  main" ++ LF ++ "* dev")) j = Some b ->
                is_current b = false).
  { intros j b Hj Hb. destruct j; [|lia]. injection Hb as <-. reflexivity. }
  destruct (refresh_asks_commits_of_current_branch runner_on_dev loaded_state
              _ _ 1 "* dev" E L N C F) as (Ca & G & _ & _).
  split; [exact E|]. split; [vm_compute; reflexivity|]. split; [exact Ca | exact G].
Defined.

(** ** What a refresh never does *)

Lemma refresh_keeps_beside_panels run : preserves beside_panels (refresh_git_status run).
Proof.
  unfold refresh_git_status, get_repo_branches, get_repo_remotes,
    get_repo_status_short, get_recent_commits, show_error_popup, subscript_from, call.
  preserves_tac.
Qed.

Lemma popups_match_failures_query c ttl out err :
  length (filter is_error_popup (query_trace c ttl out err))
  = length (filter is_failed_call (query_trace c ttl out err)).
Proof. unfold query_trace. simpl. destruct (Z.ltb err 0); reflexivity. Qed.

(** X12: a refresh touches nothing but the four list panels and the trace:
    the info panel, both input boxes, the editor setting, the credentials,
    the open prompt and the scratch fields stay as they were, also when it
    raises.  To the trace it adds only its own queries and error popups,
    exactly one popup for each query that came back with a negative status
    code. *)
Theorem refresh_only_queries_and_reports_each_failure (run : Runner) (s : State) :
  beside_panels (exec (refresh_git_status run) s) = beside_panels s
  /\ Forall refresh_event (added s (exec (refresh_git_status run) s))
  /\ length (filter is_error_popup (added s (exec (refresh_git_status run) s)))
     = length (filter is_failed_call (added s (exec (refresh_git_status run) s))).
Proof.
  split; [apply refresh_keeps_beside_panels|].
  destruct (refresh_extends run s) as (tail & Ev & Fa).
  rewrite (added_app _ _ _ Ev). split; [exact Fa|].
  destruct (refresh_git_status_trace run s)
    as (ob & eb & orr & er & os & es & tl & _ & T & _ & _ & _ & s3 & _ & _ & _ & St).
  cbv zeta in T. rewrite (added_app _ _ _ Ev) in T. rewrite T.
  rewrite !filter_app, !length_app, !popups_match_failures_query.
  f_equal. f_equal. f_equal.
  unfold commits_step in St. destruct (Menu.get (branch_menu s3)) as [[b|]|e].
  - destruct St as (oc & ec & _ & -> & _). apply popups_match_failures_query.
  - destruct St as (-> & _). reflexivity.
  - destruct St as (-> & _). reflexivity.
Qed.

(** ** Pull *)

Lemma get_some_valid m b : Menu.get m = Ok (Some b) -> Menu.valid m.
Proof.
  unfold Menu.get, Menu.valid. destruct (view_items m) as [|x l] eqn:V; [discriminate|].
  destruct (nth_error (x :: l) (selected_item m)) eqn:N; [|discriminate].
  intros _. left. apply nth_error_Some. now rewrite N.
Qed.

(** X5: with a branch selected and a readable remote selection, a pull calls
    the pull command for the branch name without its prefix, the selected
    remote and the stored credentials, shows one popup for its status and
    then always runs the refresh itself: its result is the result of
    [refresh_git_status] on the state with the call, the info panel for
    status 0 and the popup.  The info panel takes the output and the title
    "Git Pull Status - remote - branch" only for status 0; for every other
    status it stays as it was, also after the refresh. *)
Theorem pull_repo_branch_reports_and_always_refreshes
    (run : Runner) (s : State) (b : string) (remote : option string) :
  Menu.get (branch_menu s) = Ok (Some b) ->
  Menu.get (remotes_menu s) = Ok remote ->
  let branch := PyStr.slice_from 2 b in
  let c := git_pull_branch branch remote (credentials s) in
  let out := fst (run (events s) c) in
  let err := snd (run (events s) c) in
  let s' := exec (pull_repo_branch run) s in
  pull_repo_branch run s = refresh_git_status run (after_pull branch remote out err s)
  /\ (exists tail rest,
        added s s' = Call c out err :: pull_popup branch remote out err :: tail
        /\ calls tail = (refresh_queries ++ rest)%list
        /\ Forall refresh_event tail)
  /\ info_text_block s'
     = (if Z.eqb err 0
        then mkTextBlock out
               ("Git Pull Status - " ++ PyStr.str_of remote ++ " - " ++ branch)
        else info_text_block s).
Proof.
  intros Gb Gr. cbv zeta.
  destruct (run (events s)
              (git_pull_branch (PyStr.slice_from 2 b) remote (credentials s)))
    as [out err] eqn:E. simpl fst; simpl snd.
  set (c := git_pull_branch (PyStr.slice_from 2 b) remote (credentials s)) in *.
  set (s0 := after_pull (PyStr.slice_from 2 b) remote out err s).
  assert (EQ : pull_repo_branch run s = refresh_git_status run s0).
  { unfold pull_repo_branch.
    erewrite bind_ok by (unfold menu_get; rewrite Gb; reflexivity).
    erewrite bind_ok by reflexivity.
    erewrite bind_ok by (unfold menu_get; rewrite Gr; reflexivity).
    erewrite bind_ok by reflexivity.
    erewrite bind_ok by reflexivity.
    fold c. rewrite E. simpl fst; simpl snd. subst s0. unfold after_pull, pull_popup.
    fold c. destruct (Z.eqb err 0); reflexivity. }
  assert (E0 : events s0
               = (events s ++ [Call c out err;
                               pull_popup (PyStr.slice_from 2 b) remote out err])%list).
  { subst s0. unfold after_pull. fold c.
    destruct (Z.eqb err 0); simpl; now rewrite <- app_assoc. }
  assert (I0 : info_text_block s0
               = (if Z.eqb err 0
                  then mkTextBlock out
                         ("Git Pull Status - " ++ PyStr.str_of remote ++ " - "
                          ++ PyStr.slice_from 2 b)
                  else info_text_block s)).
  { subst s0. unfold after_pull. destruct (Z.eqb err 0); reflexivity. }
  split; [exact EQ|].
  clearbody s0.
  destruct (refresh_tail run s0) as (tail & rest & Ev & Ca & Fa).
  pose proof (refresh_keeps_info run s0) as K.
  unfold exec in *. rewrite EQ. split.
  - exists tail, rest. split; [|auto].
    apply added_app. rewrite Ev, E0, <- app_assoc. reflexivity.
  - now rewrite K.
Qed.

Lemma pull_repo_branch_reports_and_always_refreshes_witness :
  Menu.get (branch_menu signed_in_state) = Ok (Some "* main")
  /\ Menu.get (remotes_menu signed_in_state) = Ok (Some "origin")
  /\ info_text_block (exec (pull_repo_branch runner_ok) signed_in_state)
     = (if Z.eqb (snd (runner_ok (events signed_in_state)
                         (git_pull_branch (PyStr.slice_from 2 "* main") (Some "origin")
                            (credentials signed_in_state)))) 0
        then mkTextBlock
               (fst (runner_ok (events signed_in_state)
                       (git_pull_branch (PyStr.slice_from 2 "* main") (Some "origin")
                          (credentials signed_in_state))))
               ("Git Pull Status - " ++ PyStr.str_of (Some "origin") ++ " - "
                ++ PyStr.slice_from 2 "* main")
        else info_text_block signed_in_state).
Proof.
  assert (Gb : Menu.get (branch_menu signed_in_state) = Ok (Some "* main"))
    by (vm_compute; reflexivity).
  assert (Gr : Menu.get (remotes_menu signed_in_state) = Ok (Some "origin"))
    by (vm_compute; reflexivity).
  split; [exact Gb|]. split; [exact Gr|].
  destruct (pull_repo_branch_reports_and_always_refreshes
              runner_ok signed_in_state "* main" (Some "origin") Gb Gr) as (_ & _ & I).
  exact I.
Defined.

(** ** Push *)

(** X4: with marker-bearing branch lists, a branch selected and a readable
    remote selection, a push followed by the display of its result returns;
    the refresh itself runs whatever the status, on the state with the call
    recorded and the answer in the scratch fields, and returns some state
    [s2]; the whole leaves [s2] with the output of the push in the info
    panel under its old title, the loading popup stopped, the result popup
    (an error popup exactly when the status is not 0) and the scratch
    message and status back at the empty string and 0. *)
Theorem push_shows_output_and_resets_scratch
    (run : Runner) (s : State) (b : string) (remote : option string) :
  marks_current run ->
  Menu.get (branch_menu s) = Ok (Some b) ->
  Menu.get (remotes_menu s) = Ok remote ->
  let c := git_push_to_branch (PyStr.slice_from 2 b) remote (credentials s) in
  let out := fst (run (events s) c) in
  let err := snd (run (events s) c) in
  let s' := exec (push_and_show_result run) s in
  outcome (push_and_show_result run) s = Ok tt
  /\ info_text_block s' = mkTextBlock out (title (info_text_block s))
  /\ message s' = "" /\ status s' = 0%Z
  /\ (exists s2,
        refresh_git_status run (after_push (PyStr.slice_from 2 b) remote out err s)
        = (Ok tt, s2)
        /\ push_and_show_result run s = (Ok tt, push_shown out err s2))
  /\ exists tail rest,
       added s s'
       = (Call c out err :: tail ++ [StopLoadingPopup; push_popup out err])%list
       /\ calls tail = (refresh_queries ++ rest)%list
       /\ Forall refresh_event tail.
Proof.
  intros Mk Gb Gr. cbv zeta.
  set (c := git_push_to_branch (PyStr.slice_from 2 b) remote (credentials s)).
  destruct (run (events s) c) as [out err] eqn:E. simpl fst; simpl snd.
  set (s1 := set_message_status out err (log_event (Call c out err) s)).
  assert (V1 : Menu.valid (branch_menu s1)) by exact (get_some_valid _ _ Gb).
  destruct (refresh_returns run Mk s1 V1) as [O2 _].
  destruct (refresh_tail run s1) as (tail & rest & Ev & Ca & Fa).
  pose proof (refresh_keeps_beside_panels run s1) as K.
  unfold outcome, exec in *.
  destruct (refresh_git_status run s1) as [o2 s2] eqn:R. simpl in O2, Ev, K. subst o2.
  unfold beside_panels in K. injection K as Ki _ _ _ _ _ _ Km Ks _ _.
  assert (EQ : push_and_show_result run s
               = (Ok tt,
                  set_message_status "" 0
                    (log_event (push_popup out err)
                       (log_event StopLoadingPopup
                          (set_info_text_block
                             (fun t => mkTextBlock out (title t)) s2))))).
  { unfold push_and_show_result, push_repo_branch. rewrite !bind_assoc.
    erewrite bind_ok by (unfold menu_get; rewrite Gb; reflexivity).
    rewrite !bind_assoc. erewrite bind_ok by reflexivity. rewrite !bind_assoc.
    erewrite bind_ok by (unfold menu_get; rewrite Gr; reflexivity).
    rewrite !bind_assoc. erewrite bind_ok by reflexivity.
    rewrite !bind_assoc. erewrite bind_ok by reflexivity.
    fold c. rewrite E. simpl fst; simpl snd.
    rewrite !bind_assoc. erewrite bind_ok by reflexivity. fold s1.
    rewrite !bind_assoc. erewrite bind_ok by exact R.
    unfold show_push_result, stop_loading_popup, show_error_popup, show_message_popup,
      push_popup.
    unfold bind, gets, modify. simpl.
    rewrite Km, Ks. destruct (Z.eqb err 0); reflexivity. }
  rewrite EQ. simpl fst; simpl snd.
  split; [reflexivity|]. split; [simpl; now rewrite Ki|].
  split; [reflexivity|]. split; [reflexivity|].
  split; [exists s2; split; [exact R | reflexivity]|].
  exists tail, rest. split; [|auto].
  apply added_app. simpl. rewrite Ev. subst s1. simpl.
  rewrite <- !app_assoc. reflexivity.
Qed.

Lemma push_shows_output_and_resets_scratch_witness :
  marks_current runner_ok
  /\ Menu.get (branch_menu signed_in_state) = Ok (Some "* main")
  /\ Menu.get (remotes_menu signed_in_state) = Ok (Some "origin")
  /\ outcome (push_and_show_result runner_ok) signed_in_state = Ok tt
  /\ message (exec (push_and_show_result runner_ok) signed_in_state) = "".
Proof.
  assert (Mk : marks_current runner_ok).
  { intros evs out err E _. injection E as <- _. right. vm_compute. reflexivity. }
  assert (Gb : Menu.get (branch_menu signed_in_state) = Ok (Some "* main"))
    by (vm_compute; reflexivity).
  assert (Gr : Menu.get (remotes_menu signed_in_state) = Ok (Some "origin"))
    by (vm_compute; reflexivity).
  destruct (push_shows_output_and_resets_scratch runner_ok signed_in_state
              "* main" (Some "origin") Mk Gb Gr) as (O & _ & Me & _).
  split; [exact Mk|]. split; [exact Gb|]. split; [exact Gr|]. split; [exact O | exact Me].
Defined.

(** ** Actions on an empty panel *)

Lemma get_empty m : view_items m = [] -> Menu.get m = Ok None.
Proof. unfold Menu.get. now intros ->. Qed.

(** X6: on an empty changed-files panel the three actions that read the
    selected file raise before they reach any command and leave the state,
    trace included, as it was: add/revert with AttributeError, the file diff
    and the editor on the file with TypeError (the latter even when no
    editor is configured). *)
Theorem empty_files_panel_actions_raise (run : Runner) (s : State) :
  view_items (add_files_menu s) = [] ->
  add_revert_file run s = (Raise AttributeError, s)
  /\ open_git_diff_file run s = (Raise TypeError, s)
  /\ open_editor_file run s = (Raise TypeError, s).
Proof.
  intros E. apply get_empty in E.
  unfold add_revert_file, open_git_diff_file, open_editor_file, bind, menu_get.
  rewrite E. repeat split.
Qed.

Lemma empty_files_panel_actions_raise_witness :
  view_items (add_files_menu fresh_state) = []
  /\ add_revert_file runner_ok fresh_state = (Raise AttributeError, fresh_state)
  /\ open_git_diff_file runner_ok fresh_state = (Raise TypeError, fresh_state)
  /\ open_editor_file runner_ok fresh_state = (Raise TypeError, fresh_state).
Proof.
  assert (E : view_items (add_files_menu fresh_state) = []) by reflexivity.
  split; [exact E|].
  exact (empty_files_panel_actions_raise runner_ok fresh_state E).
Defined.

(** X7: on an empty branch panel the guarded actions (checkout, log, remote
    info, recent commits) return without a call, a popup or any change, while
    pull and push, which read the branch without a guard, raise TypeError,
    also without a call or any change. *)
Theorem empty_branch_panel_guarded_or_raising (run : Runner) (s : State) :
  view_items (branch_menu s) = [] ->
  checkout_branch run s = (Ok tt, s)
  /\ show_log run s = (Ok tt, s)
  /\ show_remote_info run s = (Ok tt, s)
  /\ get_recent_commits run s = (Ok tt, s)
  /\ pull_repo_branch run s = (Raise TypeError, s)
  /\ push_repo_branch run s = (Raise TypeError, s).
Proof.
  intros E. apply get_empty in E.
  unfold checkout_branch, show_log, show_remote_info, get_recent_commits,
    pull_repo_branch, push_repo_branch, bind, menu_get.
  rewrite E. repeat split.
Qed.

Lemma empty_branch_panel_guarded_or_raising_witness :
  view_items (branch_menu fresh_state) = []
  /\ checkout_branch runner_ok fresh_state = (Ok tt, fresh_state)
  /\ pull_repo_branch runner_ok fresh_state = (Raise TypeError, fresh_state).
Proof.
  assert (E : view_items (branch_menu fresh_state) = []) by reflexivity.
  destruct (empty_branch_panel_guarded_or_raising runner_ok fresh_state E)
    as (C & _ & _ & _ & P & _).
  split; [exact E|]. split; [exact C | exact P].
Defined.

(** ** Queries into the info panel *)

(** X8: the repository diff, the diff of the selected file (the entry
    without its three-character prefix) and the log of the selected branch
    (the entry without its two-character prefix) each make one call.  On a
    negative status they show an error popup and leave the info panel alone;
    on every other status, a positive one included, the output replaces the
    panel's text and the title becomes that of the query.  Nothing else
    changes. *)
Theorem info_queries_replace_text_unless_negative (run : Runner) (s : State) :
  (let c := git_diff in
   open_git_diff run s
   = (Ok tt, info_shown c "Unable to show git diff repo." "Git Diff"
               (fst (run (events s) c)) (snd (run (events s) c)) s))
  /\ (forall entry,
        Menu.get (add_files_menu s) = Ok (Some entry) ->
        let filename := PyStr.slice_from 3 entry in
        let c := git_diff_file filename in
        open_git_diff_file run s
        = (Ok tt, info_shown c ("Unable to show git diff for file " ++ filename ++ ".")
                    ("Git Diff - " ++ filename)
                    (fst (run (events s) c)) (snd (run (events s) c)) s))
  /\ (forall b,
        Menu.get (branch_menu s) = Ok (Some b) ->
        let branch := PyStr.slice_from 2 b in
        let c := git_log branch in
        show_log run s
        = (Ok tt, info_shown c ("Unable to show git log for branch " ++ branch ++ ".")
                    "Git log"
                    (fst (run (events s) c)) (snd (run (events s) c)) s)).
Proof.
  split; [|split].
  - cbv zeta. unfold open_git_diff, info_shown, bind, call.
    destruct (run (events s) git_diff) as [out err]. simpl fst; simpl snd.
    destruct (Z.ltb err 0); reflexivity.
  - intros entry G. cbv zeta. unfold open_git_diff_file, info_shown, bind, menu_get.
    rewrite G. cbv beta iota delta [subscript_from ret]. unfold call.
    destruct (run (events s) (git_diff_file (PyStr.slice_from 3 entry))) as [out err].
    simpl fst; simpl snd. destruct (Z.ltb err 0); reflexivity.
  - intros b G. cbv zeta. unfold show_log, info_shown, bind, menu_get.
    rewrite G. cbv beta iota. rewrite G. cbv beta iota delta [subscript_from ret].
    unfold call.
    destruct (run (events s) (git_log (PyStr.slice_from 2 b))) as [out err].
    simpl fst; simpl snd. destruct (Z.ltb err 0); reflexivity.
Qed.

Lemma info_queries_replace_text_unless_negative_witness :
  Menu.get (add_files_menu loaded_state) = Ok (Some " M file.txt")
  /\ Menu.get (branch_menu loaded_state) = Ok (Some "* main")
  /\ info_text_block (exec (open_git_diff_file runner_ok) loaded_state)
     = mkTextBlock "done" "Git Diff - file.txt"
  /\ info_text_block (exec (show_log runner_offline) loaded_state)
     = info_text_block loaded_state.
Proof.
  assert (Gf : Menu.get (add_files_menu loaded_state) = Ok (Some " M file.txt"))
    by (vm_compute; reflexivity).
  assert (Gb : Menu.get (branch_menu loaded_state) = Ok (Some "* main"))
    by (vm_compute; reflexivity).
  destruct (info_queries_replace_text_unless_negative runner_ok loaded_state)
    as (_ & F & _).
  destruct (info_queries_replace_text_unless_negative runner_offline loaded_state)
    as (_ & _ & L).
  split; [exact Gf|]. split; [exact Gb|]. split.
  - unfold exec. rewrite (F " M file.txt" Gf). reflexivity.
  - unfold exec. rewrite (L "* main" Gb). reflexivity.
Defined.

(** ** Remote info *)

(** X9: the remote-info query is guarded by the branch panel, not by the
    remotes panel.  With a branch selected it asks for whatever the remotes
    panel gives and, on a non-negative status, shows the output under the
    title "<remote> remote info"; with an empty remotes panel that is the
    remote None and the title "None remote info". *)
Theorem show_remote_info_guarded_by_branch_panel (run : Runner) (s : State) (b : string) :
  Menu.get (branch_menu s) = Ok (Some b) ->
  (forall remote,
     Menu.get (remotes_menu s) = Ok remote ->
     let c := git_get_remote_info remote in
     show_remote_info run s
     = (Ok tt, info_shown c "Cannot get remote info"
                 (PyStr.str_of remote ++ " remote info")
                 (fst (run (events s) c)) (snd (run (events s) c)) s))
  /\ (view_items (remotes_menu s) = [] ->
      let c := git_get_remote_info None in
      show_remote_info run s
      = (Ok tt, info_shown c "Cannot get remote info" "None remote info"
                  (fst (run (events s) c)) (snd (run (events s) c)) s)).
Proof.
  intros Gb.
  assert (H : forall remote,
     Menu.get (remotes_menu s) = Ok remote ->
     show_remote_info run s
     = (Ok tt, info_shown (git_get_remote_info remote) "Cannot get remote info"
                 (PyStr.str_of remote ++ " remote info")
                 (fst (run (events s) (git_get_remote_info remote)))
                 (snd (run (events s) (git_get_remote_info remote))) s)).
  { intros remote Gr.
    unfold show_remote_info, info_shown, bind, menu_get. rewrite Gb. cbv beta iota.
    rewrite Gr. cbv beta iota. unfold call.
    destruct (run (events s) (git_get_remote_info remote)) as [out err].
    simpl fst; simpl snd. destruct (Z.ltb err 0); reflexivity. }
  split; [exact H|].
  intros E. cbv zeta. exact (H None (get_empty _ E)).
Qed.

Lemma show_remote_info_guarded_by_branch_panel_witness :
  Menu.get (branch_menu no_remotes_state) = Ok (Some "* main")
  /\ view_items (remotes_menu no_remotes_state) = []
  /\ calls (added no_remotes_state (exec (show_remote_info runner_ok) no_remotes_state))
     = [git_get_remote_info None]
  /\ info_text_block (exec (show_remote_info runner_ok) no_remotes_state)
     = mkTextBlock "done" "None remote info".
Proof.
  assert (Gb : Menu.get (branch_menu no_remotes_state) = Ok (Some "* main"))
    by (vm_compute; reflexivity).
  assert (E : view_items (remotes_menu no_remotes_state) = []) by reflexivity.
  destruct (show_remote_info_guarded_by_branch_panel runner_ok no_remotes_state
              "* main" Gb) as [_ H].
  specialize (H E). cbv zeta in H.
  split; [exact Gb|]. split; [exact E|]. split.
  - unfold exec. rewrite H. vm_compute. reflexivity.
  - unfold exec. rewrite H. reflexivity.
Defined.

(** ** Refreshing twice *)

Lemma restore_menu_self m : restore_menu (selected_item m) m = m.
Proof.
  unfold restore_menu, Menu.set_selected. destruct m as [l i]. simpl.
  now destruct (Nat.ltb i (length l)).
Qed.

Lemma restore_menu_fresh prior l :
  restore_menu (selected_item (restore_menu prior (mkMenu l 0))) (mkMenu l 0)
  = restore_menu prior (mkMenu l 0).
Proof.
  unfold restore_menu, Menu.set_selected. simpl.
  destruct (Nat.ltb prior (length l)) eqn:P; simpl.
  - now rewrite P.
  - now destruct (Nat.ltb 0 (length l)).
Qed.

Lemma refreshed_branch_idem run m :
  refreshed_branch run (refreshed_branch run m) = refreshed_branch run m.
Proof.
  unfold refreshed_branch, refetched.
  destruct (Z.ltb (snd (run [] git_get_branches)) 0) eqn:E; rewrite ?E; reflexivity.
Qed.

Lemma restored_refetch_idem answer m :
  restore_menu (selected_item (restore_menu (selected_item m) (refetched answer (fun _ => 0) m)))
    (refetched answer (fun _ => 0)
       (restore_menu (selected_item m) (refetched answer (fun _ => 0) m)))
  = restore_menu (selected_item m) (refetched answer (fun _ => 0) m).
Proof.
  unfold refetched. destruct (Z.ltb (snd answer) 0).
  - now rewrite !restore_menu_self.
  - apply restore_menu_fresh.
Qed.

Lemma refreshed_commits_idem run branches m :
  refreshed_commits run branches (refreshed_commits run branches m)
  = refreshed_commits run branches m.
Proof.
  unfold refreshed_commits. destruct (Menu.get branches) as [[b|]|e]; try reflexivity.
  unfold refetched.
  destruct (Z.ltb (snd (run [] (git_get_recent_commits (PyStr.slice_from 2 b)))) 0) eqn:E;
    rewrite ?E; reflexivity.
Qed.

Section Unchanged.

Variable run : Runner.
Hypothesis same : history_independent run.

(** The panels a completed refresh leaves, as functions of the panels
    before and of the answers. *)
Lemma refresh_result s s' :
  refresh_git_status run s = (Ok tt, s') ->
  branch_menu s' = refreshed_branch run (branch_menu s)
  /\ remotes_menu s' = refreshed_remotes run (remotes_menu s)
  /\ add_files_menu s' = refreshed_files run (add_files_menu s)
  /\ commits_menu s' = refreshed_commits run (branch_menu s') (commits_menu s).
Proof.
  rewrite refresh_git_status_unfold. cbv zeta. unfold exec.
  unfold refreshed_branch, refreshed_remotes, refreshed_files, refetched.
  destruct (run [] git_get_branches) as [ob eb] eqn:Eb.
  rewrite (get_repo_branches_eq run s ob eb) by (now rewrite (same _ [])).
  simpl snd. simpl fst.
  set (s1 := if Z.ltb eb 0 then _ else _).
  destruct (run [] git_get_remotes) as [orr er] eqn:Er.
  rewrite (get_repo_remotes_eq run s1 orr er) by (now rewrite (same _ [])).
  simpl snd. simpl fst.
  set (s2 := if Z.ltb er 0 then _ else _).
  destruct (run [] git_status_short) as [os es] eqn:Es.
  rewrite (get_repo_status_short_eq run s2 os es) by (now rewrite (same _ [])).
  simpl snd. simpl fst.
  set (s3 := if Z.ltb es 0 then _ else _).
  assert (B3 : branch_menu s3
               = if Z.ltb eb 0 then branch_menu s
                 else mkMenu (PyStr.splitlines ob) (scan_branches (PyStr.splitlines ob) 0)).
  { subst s3 s2 s1. destruct (Z.ltb eb 0), (Z.ltb er 0), (Z.ltb es 0); reflexivity. }
  assert (R3 : remotes_menu s3
               = if Z.ltb er 0 then remotes_menu s else mkMenu (PyStr.splitlines orr) 0).
  { subst s3 s2 s1. destruct (Z.ltb eb 0), (Z.ltb er 0), (Z.ltb es 0); reflexivity. }
  assert (F3 : add_files_menu s3
               = if Z.ltb es 0 then add_files_menu s else mkMenu (PyStr.splitlines os) 0).
  { subst s3 s2 s1. destruct (Z.ltb eb 0), (Z.ltb er 0), (Z.ltb es 0); reflexivity. }
  assert (C3 : commits_menu s3 = commits_menu s).
  { subst s3 s2 s1. destruct (Z.ltb eb 0), (Z.ltb er 0), (Z.ltb es 0); reflexivity. }
  clearbody s3. clear s1 s2.
  assert (K := commits_keeps_panels run s3). unfold exec in K.
  assert (KC : commits_menu (snd (get_recent_commits run s3))
               = refreshed_commits run (branch_menu s3) (commits_menu s3)).
  { unfold refreshed_commits, refetched.
    destruct (Menu.get (branch_menu s3)) as [[b|]|e] eqn:G.
    - destruct (run [] (git_get_recent_commits (PyStr.slice_from 2 b)))
        as [oc ec] eqn:Ec.
      rewrite (get_recent_commits_eq run s3 b oc ec G) by (now rewrite (same _ [])).
      simpl snd. simpl fst. destruct (Z.ltb ec 0); reflexivity.
    - now rewrite (get_recent_commits_none run s3 G).
    - now rewrite (get_recent_commits_raise run s3 e G). }
  destruct (get_recent_commits run s3) as [[[]|e] s4]; [|discriminate].
  simpl in K, KC. injection K as Kb Kr Kf.
  intros H. injection H as <-.
  destruct (restore_selection_keeps (selected_item (remotes_menu s))
              (selected_item (add_files_menu s)) s4) as (_ & Kb' & Kc' & _ & _).
  rewrite restore_selection_remotes, restore_selection_files, Kb', Kc'.
  rewrite Kb, Kr, Kf, KC, B3, R3, F3, C3. unfold restore_menu.
  repeat split.
Qed.

End Unchanged.

(** X11: when the command runner answers independently of the history, a
    second refresh right after a completed one also completes and leaves the
    four list panels, items and selections, exactly as the first one left
    them. *)
Theorem refresh_twice_same_panels (run : Runner) (s s1 : State) :
  history_independent run ->
  refresh_git_status run s = (Ok tt, s1) ->
  exists s2,
    refresh_git_status run s1 = (Ok tt, s2)
    /\ branch_menu s2 = branch_menu s1
    /\ remotes_menu s2 = remotes_menu s1
    /\ add_files_menu s2 = add_files_menu s1
    /\ commits_menu s2 = commits_menu s1.
Proof.
  intros same R1.
  destruct (refresh_result run same s s1 R1) as (B1 & M1 & F1 & C1).
  pose proof (refresh_outcome run s) as O1. unfold outcome, exec in O1.
  rewrite R1 in O1. simpl in O1.
  destruct (refresh_git_status_trace run s1)
    as (ob & eb & orr & er & os & es & tl & Eb & _ & B2 & _).
  cbv zeta in B2.
  assert (B2' : branch_menu (exec (refresh_git_status run) s1) = branch_menu s1).
  { rewrite B2, B1. unfold refreshed_branch, refetched.
    rewrite <- (same (events s1) [] git_get_branches), Eb. simpl.
    destruct (Z.ltb eb 0); reflexivity. }
  pose proof (refresh_outcome run s1) as O2. rewrite B2' in O2.
  assert (O2' : outcome (refresh_git_status run) s1 = Ok tt).
  { rewrite O2. destruct (Menu.get (branch_menu s1)); [reflexivity | discriminate]. }
  unfold outcome, exec in *.
  destruct (refresh_git_status run s1) as [o2 s2] eqn:R2. simpl in O2', B2'. subst o2.
  destruct (refresh_result run same s1 s2 R2) as (Bx & Mx & Fx & Cx).
  exists s2. split; [reflexivity|]. split; [exact B2'|]. split; [|split].
  - rewrite Mx, M1. unfold refreshed_remotes. apply restored_refetch_idem.
  - rewrite Fx, F1. unfold refreshed_files. apply restored_refetch_idem.
  - rewrite Cx, B2', C1. apply refreshed_commits_idem.
Qed.

Lemma refresh_twice_same_panels_witness :
  history_independent runner_ok
  /\ refresh_git_status runner_ok third_remote_state
     = (Ok tt, exec (refresh_git_status runner_ok) third_remote_state)
  /\ remotes_menu (exec (refresh_git_status runner_ok)
                     (exec (refresh_git_status runner_ok) third_remote_state))
     = remotes_menu (exec (refresh_git_status runner_ok) third_remote_state).
Proof.
  assert (H : history_independent runner_ok) by (intros evs evs' c; reflexivity).
  assert (R : refresh_git_status runner_ok third_remote_state
              = (Ok tt, exec (refresh_git_status runner_ok) third_remote_state))
    by (vm_compute; reflexivity).
  destruct (refresh_twice_same_panels runner_ok third_remote_state _ H R)
    as (s2 & R2 & _ & M & _).
  split; [exact H|]. split; [exact R|].
  unfold exec at 1. rewrite R2. exact M.
Defined.

(** ** The settings screen: labels, log and editor command *)

(** X14: setting the editor command stores it, switches the editor type
    from 'Internal' to 'External' and leaves any other type as it is, so the
    type is never 'Internal' afterwards; the editor label then reads
    "<type> - <command>", and the info log has the update line on top,
    above the line of the swap when one happened. *)
Theorem update_default_editor_leaves_external (s : Settings.Screen) (new_editor : string) :
  let s' := Settings.update_default_editor new_editor s in
  Settings.default_editor s' = Some new_editor
  /\ Settings.editor_type s'
     = (if String.eqb (Settings.editor_type s) "Internal"
        then "External" else Settings.editor_type s)
  /\ Settings.editor_type s' <> "Internal"
  /\ Settings.editor_status_label s' = Settings.editor_type s' ++ " - " ++ new_editor
  /\ Settings.settings_info_panel s'
     = "Update default editor to: " ++ new_editor ++ LF
       ++ (if String.eqb (Settings.editor_type s) "Internal"
           then "Swapped editor type" ++ LF ++ Settings.settings_info_panel s
           else Settings.settings_info_panel s).
Proof.
  cbv zeta. unfold Settings.update_default_editor, Settings.toggle_editor_type.
  cbv zeta.
  change (Settings.editor_type (Settings.set_default_editor (Some new_editor) s))
    with (Settings.editor_type s).
  destruct (String.eqb (Settings.editor_type s) "Internal") eqn:E; simpl.
  - repeat split. discriminate.
  - repeat split; try reflexivity. now apply String.eqb_neq.
Qed.

(** X15: after a toggle of the editor type both status labels show what
    the state holds, whatever they showed before; the info log has exactly
    the line of the swap prepended; the logger's settings are untouched; and
    for every state, the two expected values or not, three toggles give the
    editor type that one toggle gives. *)
Theorem toggle_editor_type_syncs_labels_and_logs (s : Settings.Screen) :
  let s' := Settings.toggle_editor_type s in
  labels_in_sync s'
  /\ Settings.settings_info_panel s'
     = "Swapped editor type" ++ LF ++ Settings.settings_info_panel s
  /\ Settings.log_enabled s' = Settings.log_enabled s
  /\ Settings.log_file_path s' = Settings.log_file_path s
  /\ Settings.editor_type
       (Settings.toggle_editor_type (Settings.toggle_editor_type s'))
     = Settings.editor_type s'.
Proof.
  cbv zeta. unfold labels_in_sync, Settings.toggle_editor_type.
  destruct (String.eqb (Settings.editor_type s) "Internal"); simpl; repeat split.
Qed.

(** ** The pending name of add-remote *)

(** X16: add-remote sends the name kept in the scratch field together with
    the URL, as the first thing it does, and for every status, also when the
    refresh that follows raises, the scratch field is empty afterwards: the
    pending name is used once. *)
Theorem add_remote_uses_pending_name_once (run : Runner) (s : State) (url : string) :
  let c := git_add_remote (utility_var s) url in
  let s' := exec (add_remote run url) s in
  utility_var s' = None
  /\ exists tail,
       added s s' = Call c (fst (run (events s) c)) (snd (run (events s) c)) :: tail
       /\ Forall (fun e => match e with Call k _ _ => is_refresh_query k = true | _ => True end)
            tail.
Proof.
  cbv zeta.
  destruct (run (events s) (git_add_remote (utility_var s) url)) as [out err] eqn:E.
  simpl fst; simpl snd.
  set (s0 := log_event (Call (git_add_remote (utility_var s) url) out err)
               (set_utility_var None s)).
  assert (EQ : add_remote run url s
    = (if Z.ltb err 0
       then (Ok tt, log_event (ErrorPopup "Failed to add remote" out) s0)
       else refresh_git_status run (set_remotes_menu Menu.clear s0))).
  { unfold add_remote, bind, gets, modify, call. simpl. rewrite E. simpl fst; simpl snd.
    destruct (Z.ltb err 0); reflexivity. }
  unfold exec. rewrite EQ. destruct (Z.ltb err 0).
  - split; [reflexivity|].
    exists [ErrorPopup "Failed to add remote" out]. split.
    + apply added_app. simpl. now rewrite <- app_assoc.
    + repeat constructor.
  - destruct (refresh_tail run (set_remotes_menu Menu.clear s0)) as (tail & rest & Ev & _ & Fa).
    pose proof (refresh_keeps_beside_panels run (set_remotes_menu Menu.clear s0)) as K.
    unfold exec in *. unfold beside_panels in K. injection K as _ _ _ _ _ _ _ _ _ Ku _.
    split; [exact Ku|].
    exists tail. split.
    + apply added_app. rewrite Ev. simpl. now rewrite <- app_assoc.
    + eapply Forall_impl; [|exact Fa]. intros [] H; simpl in *; auto.
Qed.

(** ** A successful commit *)

Lemma show_log_shown run s b :
  Menu.get (branch_menu s) = Ok (Some b) ->
  show_log run s
  = (Ok tt, info_shown (git_log (PyStr.slice_from 2 b))
              ("Unable to show git log for branch " ++ PyStr.slice_from 2 b ++ ".")
              "Git log"
              (fst (run (events s) (git_log (PyStr.slice_from 2 b))))
              (snd (run (events s) (git_log (PyStr.slice_from 2 b)))) s).
Proof.
  intros G. unfold show_log, info_shown, bind, menu_get.
  rewrite G. cbv beta iota. rewrite G. cbv beta iota delta [subscript_from ret].
  unfold call.
  destruct (run (events s) (git_log (PyStr.slice_from 2 b))) as [out err].
  simpl fst; simpl snd. destruct (Z.ltb err 0); reflexivity.
Qed.

(** X17: when the commit command answers status 0, the branch lists bear
    the marker and the branch panel is valid, the commit returns, having
    shown the success popup with the message, run the refresh itself on the
    state with the call and the popup recorded, and then asked the log of
    the branch the refresh left selected in the state [s2] it returned, as
    its last step before it empties the message box: the commit leaves [s2]
    with the log shown and the message box emptied.  The info panel then
    holds that log under the title "Git log", unless the log query failed
    with a negative status (error popup, panel as before); with no branch at
    all only the refresh happens. *)
Theorem commit_success_refreshes_then_shows_log
    (run : Runner) (s : State) (out : string) :
  marks_current run ->
  Menu.valid (branch_menu s) ->
  run (events s) (git_commit_changes (commit_message_box s)) = (out, 0%Z) ->
  let s' := exec (commit run) s in
  let done :=
    [Call (git_commit_changes (commit_message_box s)) out 0;
     MessagePopup "Success" ("Committed: " ++ commit_message_box s)] in
  outcome (commit run) s = Ok tt
  /\ (exists s2,
        refresh_git_status run (after_commit out s) = (Ok tt, s2)
        /\ commit run s = (Ok tt, set_commit_message_box "" (log_shown run s2)))
  /\ match Menu.get (branch_menu s') with
     | Ok (Some b) =>
         exists lout lerr tail rest,
           added s s'
           = (done ++ tail
              ++ query_trace (git_log (PyStr.slice_from 2 b))
                   ("Unable to show git log for branch " ++ PyStr.slice_from 2 b ++ ".")
                   lout lerr)%list
           /\ calls tail = (refresh_queries ++ rest)%list
           /\ Forall refresh_event tail
           /\ info_text_block s'
              = (if Z.ltb lerr 0 then info_text_block s else mkTextBlock lout "Git log")
     | _ =>
         exists tail rest,
           added s s' = (done ++ tail)%list
           /\ calls tail = (refresh_queries ++ rest)%list
           /\ Forall refresh_event tail
           /\ info_text_block s' = info_text_block s
     end.
Proof.
  intros Mk V E. cbv zeta.
  set (s1 := log_event (MessagePopup "Success" ("Committed: " ++ commit_message_box s))
               (log_event (Call (git_commit_changes (commit_message_box s)) out 0) s)).
  assert (V1 : Menu.valid (branch_menu s1)) by exact V.
  assert (E1 : events s1
               = (events s ++ [Call (git_commit_changes (commit_message_box s)) out 0;
                               MessagePopup "Success"
                                 ("Committed: " ++ commit_message_box s)])%list).
  { subst s1. simpl. now rewrite <- app_assoc. }
  assert (I1 : info_text_block s1 = info_text_block s) by reflexivity.
  destruct (refresh_returns run Mk s1 V1) as [O2 V2].
  destruct (refresh_tail run s1) as (tail & rest & Ev & Ca & Fa).
  pose proof (refresh_keeps_info run s1) as Ki.
  pose proof (show_log_returns run _ V2) as O3.
  unfold outcome, exec in *.
  destruct (refresh_git_status run s1) as [o2 s2] eqn:R2.
  cbn [fst snd] in O2, O3, V2, Ev, Ki. subst o2.
  destruct (show_log run s2) as [o3 s3] eqn:R3. cbn [fst snd] in O3. subst o3.
  assert (EQ : commit run s = (Ok tt, set_commit_message_box "" s3)).
  { unfold commit, bind at 1 2 3, gets, call. rewrite E. simpl fst; simpl snd.
    change (negb (Z.eqb 0 0)) with false. cbv iota.
    unfold bind, show_message_popup, modify. fold s1. rewrite R2, R3. reflexivity. }
  assert (L : s3 = log_shown run s2).
  { unfold log_shown. destruct (valid_get _ V2) as ([b|] & G2); rewrite G2.
    - pose proof (show_log_shown run s2 b G2) as SL. rewrite R3 in SL. congruence.
    - assert (R3' : show_log run s2 = (Ok tt, s2))
        by (unfold show_log, bind, menu_get; now rewrite G2).
      congruence. }
  assert (PIN : exists s2',
             refresh_git_status run (after_commit out s) = (Ok tt, s2')
             /\ commit run s = (Ok tt, set_commit_message_box "" (log_shown run s2'))).
  { exists s2. split; [exact R2|]. rewrite EQ, L. reflexivity. }
  clear L. clearbody s1.
  split; [rewrite EQ; reflexivity|]. split; [exact PIN|]. clear PIN.
  rewrite EQ. cbn [fst snd].
  change (branch_menu (set_commit_message_box "" s3)) with (branch_menu s3).
  change (info_text_block (set_commit_message_box "" s3)) with (info_text_block s3).
  assert (A : forall new, events s3 = (events s2 ++ new)%list ->
              added s (set_commit_message_box "" s3)
              = ([Call (git_commit_changes (commit_message_box s)) out 0;
                  MessagePopup "Success" ("Committed: " ++ commit_message_box s)]
                 ++ tail ++ new)%list).
  { intros new H. apply added_app.
    change (events (set_commit_message_box "" s3)) with (events s3).
    rewrite H, Ev, E1, <- !app_assoc. reflexivity. }
  destruct (valid_get _ V2) as ([b|] & G2).
  - pose proof (show_log_shown run s2 b G2) as SL. rewrite R3 in SL.
    destruct (run (events s2) (git_log (PyStr.slice_from 2 b))) as [lout lerr].
    cbn [fst snd] in SL.
    assert (S3 : s3 = info_shown (git_log (PyStr.slice_from 2 b))
                        ("Unable to show git log for branch "
                         ++ PyStr.slice_from 2 b ++ ".")
                        "Git log" lout lerr s2) by congruence.
    clear SL R3 EQ.
    assert (B3 : branch_menu s3 = branch_menu s2).
    { rewrite S3. unfold info_shown. destruct (Z.ltb lerr 0); reflexivity. }
    assert (E3 : events s3
                 = (events s2
                    ++ query_trace (git_log (PyStr.slice_from 2 b))
                         ("Unable to show git log for branch "
                          ++ PyStr.slice_from 2 b ++ ".") lout lerr)%list).
    { rewrite S3. unfold info_shown, query_trace. destruct (Z.ltb lerr 0);
        cbn [events log_event set_info_text_block]; rewrite <- ?app_assoc; reflexivity. }
    rewrite B3, G2. exists lout, lerr, tail, rest.
    split; [exact (A _ E3)|]. split; [exact Ca|]. split; [exact Fa|].
    rewrite S3. unfold info_shown. destruct (Z.ltb lerr 0).
    + cbn [info_text_block log_event]. now rewrite Ki.
    + reflexivity.
  - assert (R3' : show_log run s2 = (Ok tt, s2)).
    { unfold show_log, bind, menu_get. now rewrite G2. }
    rewrite R3' in R3. injection R3 as <-. rewrite G2.
    exists tail, rest. split; [|split; [exact Ca|split; [exact Fa|now rewrite Ki]]].
    rewrite (A [] (eq_sym (app_nil_r _))). now rewrite app_nil_r.
Qed.

Lemma commit_success_refreshes_then_shows_log_witness :
  marks_current runner_ok
  /\ Menu.valid (branch_menu message_typed_state)
  /\ runner_ok (events message_typed_state)
       (git_commit_changes (commit_message_box message_typed_state)) = ("done", 0%Z)
  /\ outcome (commit runner_ok) message_typed_state = Ok tt.
Proof.
  assert (Mk : marks_current runner_ok).
  { intros evs out err E _. injection E as <- _. right. vm_compute. reflexivity. }
  assert (V : Menu.valid (branch_menu message_typed_state)) by (left; vm_compute; lia).
  assert (E : runner_ok (events message_typed_state)
                (git_commit_changes (commit_message_box message_typed_state))
              = ("done", 0%Z)) by reflexivity.
  destruct (commit_success_refreshes_then_shows_log
              runner_ok message_typed_state "done" Mk V E) as [O _].
  split; [exact Mk|]. split; [exact V|]. split; [exact E | exact O].
Defined.
